(** * csfin-toolkit: date utilities and raw-record converters

    A shallow embedding of [packages/core/src/utils/dateutils.ts] and of the
    raw-record converters ([convertToTransaction], [convertToQuoteData]),
    together with the part of the ECMAScript [Date] semantics these functions
    rely on. *)

From Stdlib Require Import ZArith Lia List String Ascii Bool.
From Stdlib Require Import Floats.SpecFloat.
Import ListNotations.

Local Open Scope Z_scope.

(** ** The ECMAScript time model (ECMA-262, "Date Objects")

    Time values are integral milliseconds since 1970-01-01T00:00:00Z.  The
    abstract operations below keep the names the standard gives them.  The
    standard states [YearFromTime] as "the largest integer y such that
    TimeFromYear(y) <= t"; [YearFromDay] computes it, and
    [YearFromDay_spec] / [YearFromDay_unique] show that it is that integer. *)
Module Ecma.

Definition msPerDay : Z := 86400000.

Definition Day (t : Z) : Z := t / msPerDay.

Definition TimeWithinDay (t : Z) : Z := t mod msPerDay.

Definition isLeapYear (y : Z) : bool :=
  (y mod 4 =? 0) && (negb (y mod 100 =? 0) || (y mod 400 =? 0)).

Definition DaysInYear (y : Z) : Z := if isLeapYear y then 366 else 365.

Definition DayFromYear (y : Z) : Z :=
  365 * (y - 1970) + (y - 1969) / 4 - (y - 1901) / 100 + (y - 1601) / 400.

Definition TimeFromYear (y : Z) : Z := msPerDay * DayFromYear y.

(** The year containing day number [d]: a first estimate from the mean
    length of the Gregorian year (146097 days per 400 years), corrected by at
    most one year in either direction. *)
Definition YearFromDay (d : Z) : Z :=
  let y := 1970 + (400 * d) / 146097 in
  if d <? DayFromYear y then y - 1
  else if DayFromYear (y + 1) <=? d then y + 1
  else y.

Definition YearFromTime (t : Z) : Z := YearFromDay (Day t).

Definition InLeapYear (t : Z) : Z :=
  if isLeapYear (YearFromTime t) then 1 else 0.

Definition DayWithinYear (t : Z) : Z := Day t - DayFromYear (YearFromTime t).

(** Day number within the year on which month [m] (0 = January) starts;
    [l] is 1 in a leap year and 0 otherwise.  [monthStart l 12] is the
    length of the year. *)
Definition monthStart (l m : Z) : Z :=
  match m with
  | 0 => 0
  | 1 => 31
  | 2 => 59 + l
  | 3 => 90 + l
  | 4 => 120 + l
  | 5 => 151 + l
  | 6 => 181 + l
  | 7 => 212 + l
  | 8 => 243 + l
  | 9 => 273 + l
  | 10 => 304 + l
  | 11 => 334 + l
  | _ => 365 + l
  end.

Definition MonthFromTime (t : Z) : Z :=
  let d := DayWithinYear t in
  let l := InLeapYear t in
  if d <? 31 then 0
  else if d <? 59 + l then 1
  else if d <? 90 + l then 2
  else if d <? 120 + l then 3
  else if d <? 151 + l then 4
  else if d <? 181 + l then 5
  else if d <? 212 + l then 6
  else if d <? 243 + l then 7
  else if d <? 273 + l then 8
  else if d <? 304 + l then 9
  else if d <? 334 + l then 10
  else 11.

Definition DateFromTime (t : Z) : Z :=
  DayWithinYear t - monthStart (InLeapYear t) (MonthFromTime t) + 1.

(** [MakeDay] on integral arguments: months outside 0..11 carry into the
    year, days outside the month roll over into the neighbouring months. *)
Definition MakeDay (year month date : Z) : Z :=
  let ym := year + month / 12 in
  let mn := month mod 12 in
  DayFromYear ym + monthStart (if isLeapYear ym then 1 else 0) mn + date - 1.

Definition MakeDate (day time : Z) : Z := day * msPerDay + time.

(** [TimeClip]: time values beyond 8.64e15 ms are not dates ([None] stands
    for the NaN time value). *)
Definition TimeClip (t : Z) : option Z :=
  if 8640000000000000 <? Z.abs t then None else Some t.

(** [Date.UTC(year, month, date)] on integral arguments, with the legacy
    mapping of the years 0..99 to 1900..1999. *)
Definition Date_UTC (year month date : Z) : option Z :=
  let yr := if (0 <=? year) && (year <=? 99) then 1900 + year else year in
  TimeClip (MakeDate (MakeDay yr month date) 0).

End Ecma.

(** ** The Gregorian calendar

    What a "real calendar date" is, stated without reference to time
    values: months are numbered 1..12 as in the input texts. *)
Module Calendar.

Definition daysInMonth (y m : Z) : Z :=
  match m with
  | 1 => 31
  | 2 => if Ecma.isLeapYear y then 29 else 28
  | 3 => 31
  | 4 => 30
  | 5 => 31
  | 6 => 30
  | 7 => 31
  | 8 => 31
  | 9 => 30
  | 10 => 31
  | 11 => 30
  | 12 => 31
  | _ => 0
  end.

Definition realDate (y m d : Z) : bool :=
  (1 <=? m) && (m <=? 12) && (1 <=? d) && (d <=? daysInMonth y m).

End Calendar.

(** ** Values shared by the two source files *)

(** A JavaScript number that holds an integer; [None] stands for NaN and for
    [undefined] (both make every [===] comparison below false and turn
    [Date.UTC] into NaN). *)
Definition jsnum : Type := option Z.

(** A [Date] object is its time value; [None] is the invalid date. *)
Definition Date : Type := option Z.

(** [new Error(message)]. *)
Inductive Error : Type := MkError (message : string).

(** A call either returns or throws. *)
Inductive result (A : Type) : Type :=
| Ok (a : A)
| Throw (e : Error).

Arguments Ok {A} a.
Arguments Throw {A} e.

Definition bind {A B : Type} (r : result A) (k : A -> result B) : result B :=
  match r with
  | Ok a => k a
  | Throw e => Throw e
  end.

Definition isOk {A : Type} (r : result A) : bool :=
  match r with
  | Ok _ => true
  | Throw _ => false
  end.

Notation "x <- e ;; k" := (bind e (fun x => k))
  (at level 61, e at next level, right associativity).

(** [Array.prototype.map] with a callback that may throw: elements are
    visited in order and the first throw ends the call. *)
Fixpoint mapM {A B : Type} (f : A -> result B) (l : list A) : result (list B) :=
  match l with
  | [] => Ok []
  | a :: l' => b <- f a ;; bs <- mapM f l' ;; Ok (b :: bs)
  end.

(** The host the code runs on: its local time zone adjustment (ECMA-262
    [LocalTZA(t, true)], in milliseconds, as a function of the UTC time), and
    whether its ISO date parser lets a day of month up to 31 roll over into
    the next month (V8) or rejects it (as ECMA-262 asks). *)
Record Host : Type := {
  LocalTZA : Z -> Z;
  isoDayRollover : bool
}.

(** Time zones: offsets stay within a day of UTC; east of Greenwich local
    time is ahead of UTC (or equal to it), west of it local time is behind. *)
Definition boundedZone (h : Host) : Prop :=
  forall t, - Ecma.msPerDay < LocalTZA h t < Ecma.msPerDay.

Definition eastwardZone (h : Host) : Prop :=
  forall t, 0 <= LocalTZA h t < Ecma.msPerDay.

Definition westwardZone (h : Host) : Prop :=
  forall t, - Ecma.msPerDay <= LocalTZA h t < 0.

Definition hostUTC : Host :=
  {| LocalTZA := fun _ => 0; isoDayRollover := false |}.

(** Central European Time, UTC+01:00, on an engine with day rollover. *)
Definition hostBerlin : Host :=
  {| LocalTZA := fun _ => 3600000; isoDayRollover := true |}.

(** Eastern Standard Time, UTC-05:00, on an engine with day rollover. *)
Definition hostNewYork : Host :=
  {| LocalTZA := fun _ => -18000000; isoDayRollover := true |}.

(** ** Strings: the fixed-width patterns, [split] and [Number] *)
Module Text.

Local Open Scope string_scope.

Definition isDigit (c : ascii) : bool :=
  let n := N_of_ascii c in (48 <=? n)%N && (n <=? 57)%N.

(** The atoms the source's regular expressions are made of: [\d] and a
    literal character. *)
Inductive atom : Type :=
| Digit
| Lit (c : ascii).

(** [/^...$/.test(s)] for a sequence of atoms: the anchors make the whole
    string match, atom by atom. *)
Fixpoint test (re : list atom) (s : string) : bool :=
  match re, s with
  | [], EmptyString => true
  | Digit :: re', String c s' => isDigit c && test re' s'
  | Lit a :: re', String c s' => Ascii.eqb a c && test re' s'
  | _, _ => false
  end.

(** [/^\d{4}-\d{2}-\d{2}$/] *)
Definition isoRegex : list atom :=
  [Digit; Digit; Digit; Digit; Lit "-"; Digit; Digit; Lit "-"; Digit; Digit].

(** [/^\d{2}\.\d{2}\.\d{4}$/] and [/^\d{2}\/\d{2}\/\d{4}$/] *)
Definition shortRegex (sep : ascii) : list atom :=
  [Digit; Digit; Lit sep; Digit; Digit; Lit sep; Digit; Digit; Digit; Digit].

(** [s.split(sep)] for a separator that matches one character. *)
Fixpoint split (sep : ascii -> bool) (s : string) : list string :=
  match s with
  | EmptyString => [EmptyString]
  | String c r =>
      if sep c then EmptyString :: split sep r
      else match split sep r with
           | h :: t => String c h :: t
           | [] => [String c EmptyString]
           end
  end.

(** The separator ["-"] of the ISO branch. *)
Definition isHyphen (c : ascii) : bool := Ascii.eqb c "-".

(** The separator class [/[\\.\\/]/] of [getCompsFromFormatted]: inside the
    class, [\\] is a backslash, [.] a dot and [\/] a slash. *)
Definition isShortSeparator (c : ascii) : bool :=
  Ascii.eqb c "\" || Ascii.eqb c "." || Ascii.eqb c "/".

Definition digitValue (c : ascii) : Z := Z.of_N (N_of_ascii c) - 48.

Fixpoint digitsValue (acc : Z) (s : string) : jsnum :=
  match s with
  | EmptyString => Some acc
  | String c r =>
      if isDigit c then digitsValue (10 * acc + digitValue c) r else None
  end.

(** [Number(s)] on a run of decimal digits (the empty string is 0).  Every
    other text (signs, blanks, fractions, exponents, hexadecimal, NaN) is
    outside the integers and is collapsed to [None]; the patterns guard each
    call, so the validators only ever convert runs of digits
    ([Number_pad2], [Number_pad4]). *)
Definition Number (s : string) : jsnum := digitsValue 0 s.

(** Array destructuring [const [a, b, c] = xs]: a missing element is
    [undefined]. *)
Definition item (xs : list jsnum) (i : nat) : jsnum := nth i xs None.

(** A run of decimal digits. *)
Fixpoint allDigits (s : string) : bool :=
  match s with
  | EmptyString => true
  | String c r => isDigit c && allDigits r
  end.

End Text.

(** ** [Date] objects: construction and the accessors the source calls *)
Module JSDate.

Import Ecma Text.

Definition LocalTime (h : Host) (t : Z) : Z := t + LocalTZA h t.

(** [date.getTime()] *)
Definition getTime (date : Date) : jsnum := date.

(** [isNaN(x)] *)
Definition isNaN (x : jsnum) : bool :=
  match x with
  | Some _ => false
  | None => true
  end.

(** [date.getFullYear()], [date.getMonth()], [date.getDate()]: the
    components of the date in the host's local time. *)
Definition getFullYear (h : Host) (date : Date) : jsnum :=
  option_map (fun t => YearFromTime (LocalTime h t)) date.

Definition getMonth (h : Host) (date : Date) : jsnum :=
  option_map (fun t => MonthFromTime (LocalTime h t)) date.

Definition getDate (h : Host) (date : Date) : jsnum :=
  option_map (fun t => DateFromTime (LocalTime h t)) date.

(** [date.getUTCFullYear()], [date.getUTCMonth()], [date.getUTCDate()]. *)
Definition getUTCFullYear (date : Date) : jsnum := option_map YearFromTime date.

Definition getUTCMonth (date : Date) : jsnum := option_map MonthFromTime date.

Definition getUTCDate (date : Date) : jsnum := option_map DateFromTime date.

(** [a === b] on numbers: NaN and [undefined] equal nothing. *)
Definition strictEq (a b : jsnum) : bool :=
  match a, b with
  | Some x, Some y => x =? y
  | _, _ => false
  end.

(** [x - 1] on numbers. *)
Definition sub1 (x : jsnum) : jsnum := option_map (fun v => v - 1) x.

(** [new Date(Date.UTC(year, month, date))] with number arguments: a NaN
    argument gives the invalid date. *)
Definition newDateUTC (year month date : jsnum) : Date :=
  match year, month, date with
  | Some y, Some m, Some d => Date_UTC y m d
  | _, _, _ => None
  end.

(** [new Date(s)] for a text [s] in the date-only ISO form [YYYY-MM-DD],
    which ECMA-262 reads as UTC midnight of that day (without the 0..99
    year mapping of [Date.UTC]).  A month outside 1..12 gives the invalid
    date; so does a day outside the month, unless the host rolls days up to
    31 over.  Other forms of text are read in implementation-defined ways;
    the source only constructs dates from texts that passed the ISO
    pattern, and this model gives the invalid date for the rest. *)
Definition newDateFromString (h : Host) (s : string) : Date :=
  if test isoRegex s then
    match map Number (split isHyphen s) with
    | [Some y; Some m; Some d] =>
        let lastDay := if isoDayRollover h then 31 else Calendar.daysInMonth y m in
        if (1 <=? m) && (m <=? 12) && (1 <=? d) && (d <=? lastDay)
        then TimeClip (MakeDate (MakeDay y (m - 1) d) 0)
        else None
    | _ => None
    end
  else None.

End JSDate.

(** ** [packages/core/src/utils/dateutils.ts] *)
Module DateUtils.

Import Text JSDate.
Local Open Scope string_scope.

Definition createDateFromComps (year month day : jsnum) : Date :=
  newDateUTC year (sub1 month) day.

Definition getCompsFromFormatted (formattedDate : string) : list jsnum :=
  map Number (split isShortSeparator formattedDate).

Definition isValidDateComponents (h : Host) (year month day : jsnum) : bool :=
  let date := createDateFromComps year month day in
  strictEq (getFullYear h date) year
  && strictEq (getMonth h date) (sub1 month)
  && strictEq (getDate h date) day.

Definition isValidISODateString (h : Host) (dateString : string) : bool :=
  (* A -- check for correct format string *)
  if negb (test isoRegex dateString) then false
  else
    (* B -- check if we can instantiate a date object *)
    let date := newDateFromString h dateString in
    (* C -- check if the date conversion did not produce errors *)
    if isNaN (getTime date) then false
    else
      (* D -- check for semantically incorrect date strings *)
      let comps := map Number (split isHyphen dateString) in
      let year := item comps 0 in
      let month := item comps 1 in
      let day := item comps 2 in
      if negb (isValidDateComponents h year month day) then false
      else true.

Definition isValidFormattedString (h : Host) (formattedDate : string) : bool :=
  (* A -- check whether the string follows the supported schemas *)
  if negb (test (shortRegex ".") formattedDate
           || test (shortRegex "/") formattedDate) then false
  else
    (* B -- parse the components and check them *)
    let comps := getCompsFromFormatted formattedDate in
    let day := item comps 0 in
    let month := item comps 1 in
    let year := item comps 2 in
    if negb (isValidDateComponents h year month day) then false
    else true.

Definition createDateFromFormatted (formattedDate : string) : Date :=
  let comps := getCompsFromFormatted formattedDate in
  let day := item comps 0 in
  let month := item comps 1 in
  let year := item comps 2 in
  createDateFromComps year month day.

(** The error of [getDateObject]; the specification calls it
    InvalidDateError. *)
Definition InvalidDateError (dateString : string) : Error :=
  MkError ("Invalid date string provided: " ++ dateString).

Definition getDateObject (h : Host) (dateOrString : string + Date)
  : result Date :=
  match dateOrString with
  | inl dateString =>
      if isValidISODateString h dateString then
        Ok (newDateFromString h dateString)
      else if isValidFormattedString h dateString then
        Ok (createDateFromFormatted dateString)
      else Throw (InvalidDateError dateString)
  | inr date => Ok date
  end.

End DateUtils.

(** ** The date parser as the specification words it

    "Output dates are always constructed via UTC-based component assembly
    (year, month - 1, day)": the same dialect detection as [getDateObject],
    with the ISO branch assembling the date from the three components of
    the text, as the locale-short branch does. *)
Module Assembled.

Import Text JSDate DateUtils.

Definition createDateFromISO (dateString : string) : Date :=
  let comps := map Number (split isHyphen dateString) in
  let year := item comps 0 in
  let month := item comps 1 in
  let day := item comps 2 in
  createDateFromComps year month day.

Definition getDateObject (h : Host) (dateOrString : string + Date)
  : result Date :=
  match dateOrString with
  | inl dateString =>
      if isValidISODateString h dateString then
        Ok (createDateFromISO dateString)
      else if isValidFormattedString h dateString then
        Ok (createDateFromFormatted dateString)
      else Throw (InvalidDateError dateString)
  | inr date => Ok date
  end.

End Assembled.

(** ** The raw-record converters ([convertToTransaction],
    [convertToQuoteData]) *)

(** A JavaScript number: an IEEE 754 binary64 value. *)
Definition number : Type := spec_float.

(** [Math.abs] *)
Definition Math_abs (x : number) : number := SFabs x.

Definition zero : number := S754_zero false.

(** Modelled from the spec: the number parser [parseNumberWithAutoLocale]
    of the core package is an injected capability with the contract
    "parse(text) -> number | error"; its body is not part of these
    sources. *)
Class NumberParser : Type :=
  parseNumberWithAutoLocale : string -> result number.

Inductive TransactionType : Type := BUY | SELL.

(** Modelled from the spec: the record types of [./types] and the value
    classes [Transaction] and [QuoteItem] of the core package are declared
    outside these sources; their fields follow the data model of the
    specification and, for the two classes, the order of the constructor
    arguments at the call sites.  The constructors store their arguments. *)
Module RawTransaction.
Record t : Type := mk {
  executionDate : string;
  type : string;
  shares : string;
  price : string;
  totalFees : string
}.
End RawTransaction.

Module Transaction.
Record t : Type := mk {
  date : Date;
  type : TransactionType;
  shares : number;
  price : number;
  exchange : option string;
  fees : number
}.
End Transaction.

Module RawQuoteItem.
Record t : Type := mk {
  date : string;
  price : string
}.
End RawQuoteItem.

Module QuoteItem.
Record t : Type := mk {
  date : string;
  price : number
}.
End QuoteItem.

Module RawQuoteData.
Record t : Type := mk {
  name : string;
  nsin : string;
  exchange : string;
  items : list RawQuoteItem.t
}.
End RawQuoteData.

Module QuoteData.
Record t : Type := mk {
  name : string;
  nsin : string;
  exchange : string;
  items : list QuoteItem.t
}.
End QuoteData.

Module Converters.

Import DateUtils.
Local Open Scope string_scope.

(** The error of [convertRawType]; the specification calls it
    UnknownTransactionTypeError. *)
Definition UnknownTransactionTypeError (rawType : string) : Error :=
  MkError ("Invalid raw transaction type: " ++ rawType).

Definition convertRawType (rawType : string) : result TransactionType :=
  if String.eqb rawType "Kauf" then Ok BUY
  else if String.eqb rawType "Verkauf" then Ok SELL
  else Throw (UnknownTransactionTypeError rawType).

(** The arguments of [new Transaction(...)] are evaluated from left to
    right; the first one that throws ends the call. *)
Definition convertToTransaction `{NumberParser} (h : Host)
    (data : RawTransaction.t) : result Transaction.t :=
  let '(RawTransaction.mk executionDate type shares price totalFees) := data in
  date <- getDateObject h (inl executionDate) ;;
  type' <- convertRawType type ;;
  shares' <- parseNumberWithAutoLocale shares ;;
  price' <- parseNumberWithAutoLocale price ;;
  fees' <- parseNumberWithAutoLocale totalFees ;;
  Ok (Transaction.mk date type' (Math_abs shares') price' None (Math_abs fees')).

Definition convertToQuoteItem `{NumberParser} (data : RawQuoteItem.t)
  : result QuoteItem.t :=
  let '(RawQuoteItem.mk date price) := data in
  price' <- parseNumberWithAutoLocale price ;;
  Ok (QuoteItem.mk date price').

Definition convertToQuoteData `{NumberParser} (data : RawQuoteData.t)
  : result QuoteData.t :=
  let '(RawQuoteData.mk name nsin exchange items) := data in
  items' <- mapM convertToQuoteItem items ;;
  Ok (QuoteData.mk name nsin exchange items').

End Converters.

(** ** The texts of the supported dialects

    How a year 0..9999, a month 0..99 and a day 0..99 are written in each
    dialect; every text that matches one of the three patterns is written
    this way ([test_isoRegex_inv], [test_shortRegex_inv]). *)
Module Dialect.

Local Open Scope string_scope.

Definition digitChar (v : Z) : ascii := ascii_of_N (Z.to_N (48 + v)).

Definition pad2 (n : Z) : string :=
  String (digitChar (n / 10)) (String (digitChar (n mod 10)) EmptyString).

Definition pad4 (n : Z) : string :=
  String (digitChar (n / 1000))
    (String (digitChar ((n / 100) mod 10))
       (String (digitChar ((n / 10) mod 10))
          (String (digitChar (n mod 10)) EmptyString))).

(** Whether the three components fit the fixed widths. *)
Definition fits (y m d : Z) : bool :=
  ((0 <=? y) && (y <=? 9999) && (0 <=? m) && (m <=? 99)
   && (0 <=? d) && (d <=? 99))%Z.

Definition inWidth (y m d : Z) : Prop :=
  (0 <= y <= 9999 /\ 0 <= m <= 99 /\ 0 <= d <= 99)%Z.

(** [YYYY-MM-DD] *)
Definition isoText (y m d : Z) : string :=
  pad4 y ++ String "-" (pad2 m ++ String "-" (pad2 d)).

(** [DD.MM.YYYY] for the separator ["."] and [DD/MM/YYYY] for ["/"]. *)
Definition shortText (sep : ascii) (y m d : Z) : string :=
  pad2 d ++ String sep (pad2 m ++ String sep (pad4 y)).

(** The time value of UTC midnight of the calendar day [y]-[m]-[d]. *)
Definition utcMidnight (y m d : Z) : Z :=
  Ecma.MakeDate (Ecma.MakeDay y (m - 1) d) 0.

End Dialect.

(** ** A number parser for the examples

    Reads an optionally signed run of decimal digits; it throws on every
    other text. *)
Module Sample.

Import Text.
Local Open Scope string_scope.

Definition ofInteger (negative : bool) (n : Z) : number :=
  match n with
  | Zpos p => S754_finite negative p 0
  | _ => S754_zero negative
  end.

Definition parseInteger (s : string) : result number :=
  match s with
  | EmptyString => Throw (MkError "not a number")
  | String "-" (String c r) =>
      match digitsValue 0 (String c r) with
      | Some n => Ok (ofInteger true n)
      | None => Throw (MkError "not a number")
      end
  | _ =>
      match digitsValue 0 s with
      | Some n => Ok (ofInteger false n)
      | None => Throw (MkError "not a number")
      end
  end.

Definition integerParser : NumberParser := parseInteger.

Definition rawBuy : RawTransaction.t :=
  RawTransaction.mk "2023-01-02" "Kauf" "10" "100" "-2".

Definition rawSell : RawTransaction.t :=
  RawTransaction.mk "02.01.2023" "Verkauf" "-5" "100" "-2".

Definition rawImpossibleDate : RawTransaction.t :=
  RawTransaction.mk "2025-06-31" "Kauf" "10" "100" "-2".

Definition rawUnknownType : RawTransaction.t :=
  RawTransaction.mk "2023-01-02" "kauf" "10" "100" "-2".

Definition rawBadFees : RawTransaction.t :=
  RawTransaction.mk "2023-01-02" "Kauf" "10" "100" "two".

Definition rawQuotes : RawQuoteData.t :=
  RawQuoteData.mk "ACME" "123456" "XETRA"
    [RawQuoteItem.mk "2023-01-03" "101"; RawQuoteItem.mk "not a date" "99";
     RawQuoteItem.mk "2023-01-03" "101"].

End Sample.

(** ** Further texts, hosts and records used in the properties below *)
Module Shapes.

Import Dialect.
Local Open Scope string_scope.

(** A day, a month and a year written with the fixed widths of the
    locale-short dialects, with any two characters as separators. *)
Definition mixedText (sep1 sep2 : ascii) (y m d : Z) : string :=
  pad2 d ++ String sep1 (pad2 m ++ String sep2 (pad4 y)).

(** The years [Date.UTC] maps to 1900..1999. *)
Definition legacyYear (y : Z) : bool := ((0 <=? y) && (y <=? 99))%Z.

(** Two hosts in the same time zone (their ISO parsers may differ). *)
Definition sameZone (h h' : Host) : Prop :=
  forall t, LocalTZA h t = LocalTZA h' t.

(** Central European Time on an engine that rejects days outside the
    month. *)
Definition hostBerlinStrict : Host :=
  {| LocalTZA := fun _ => 3600000%Z; isoDayRollover := false |}.

(** [Sample.rawSell] with the share count written without its sign. *)
Definition rawSellUnsigned : RawTransaction.t :=
  RawTransaction.mk "02.01.2023" "Verkauf" "5" "100" "-2".

(** Quotes whose second price is not a number and whose third is not one
    either. *)
Definition rawQuotesBadPrice : RawQuoteData.t :=
  RawQuoteData.mk "ACME" "123456" "XETRA"
    [RawQuoteItem.mk "2023-01-03" "101"; RawQuoteItem.mk "2023-01-04" "n/a";
     RawQuoteItem.mk "2023-01-05" ""].

End Shapes.

(** ** The date utilities on untyped arguments

    The parameter types of [dateutils.ts] are erased when it runs, and its
    functions are exported: a caller can pass any value.  This module
    follows the source statement by statement once more, now on arguments
    that need not be strings and with every built-in operation in its
    ECMA-262 form, which either returns or throws a [TypeError]:
    [ToString] (used by [RegExp.prototype.test]) throws on a symbol, so does
    [ToNumber] (used by [new Date(value)]), and reading the property
    [split] throws on [undefined] and [null], while on a symbol the
    property is missing and calling it throws.  [Number] on a string,
    array destructuring, [Date.UTC], the [Date] getters and [===] on
    numbers have no throwing case: for them the definitions above are
    used as they are. *)
Module Runtime.

Import Text JSDate.
Local Open Scope string_scope.

(** The arguments considered: the primitives [undefined], [null], a symbol,
    and a string. *)
Inductive arg : Type :=
| AUndefined
| ANull
| ASymbol
| AString (s : string).

(** What can be thrown: a [TypeError] of the engine, or the [Error] the
    source constructs itself. *)
Inductive exn : Type :=
| TypeError
| Thrown (e : Error).

Inductive outcome (A : Type) : Type :=
| Return (a : A)
| Raise (x : exn).

Arguments Return {A} a.
Arguments Raise {A} x.

Definition andThen {A B : Type} (o : outcome A) (k : A -> outcome B)
  : outcome B :=
  match o with
  | Return a => k a
  | Raise x => Raise x
  end.

Notation "x <~ e ;; k" := (andThen e (fun x => k))
  (at level 61, e at next level, right associativity).

(** [ToString(x)] *)
Definition ToString (x : arg) : outcome string :=
  match x with
  | AUndefined => Return "undefined"
  | ANull => Return "null"
  | ASymbol => Raise TypeError
  | AString s => Return s
  end.

(** [re.test(x)]: the argument is converted with [ToString] first. *)
Definition RegExp_test (re : list atom) (x : arg) : outcome bool :=
  s <~ ToString x ;; Return (test re s).

(** [new Date(x)]: a string is parsed; every other primitive goes through
    [ToNumber] ([undefined] is NaN, [null] is 0, a symbol throws). *)
Definition newDate (h : Host) (x : arg) : outcome Date :=
  match x with
  | AUndefined => Return None
  | ANull => Return (Some 0%Z)
  | ASymbol => Raise TypeError
  | AString s => Return (newDateFromString h s)
  end.

(** [x.split(sep)] *)
Definition String_split (sep : ascii -> bool) (x : arg)
  : outcome (list string) :=
  match x with
  | AString s => Return (split sep s)
  | AUndefined | ANull | ASymbol => Raise TypeError
  end.

Definition getCompsFromFormatted (formattedDate : arg)
  : outcome (list jsnum) :=
  parts <~ String_split isShortSeparator formattedDate ;;
  Return (map Number parts).

Definition createDateFromFormatted (formattedDate : arg) : outcome Date :=
  comps <~ getCompsFromFormatted formattedDate ;;
  let day := item comps 0 in
  let month := item comps 1 in
  let year := item comps 2 in
  Return (DateUtils.createDateFromComps year month day).

Definition isValidISODateString (h : Host) (dateString : arg)
  : outcome bool :=
  (* A -- check for correct format string *)
  matched <~ RegExp_test isoRegex dateString ;;
  if negb matched then Return false
  else
    (* B -- check if we can instantiate a date object *)
    date <~ newDate h dateString ;;
    (* C -- check if the date conversion did not produce errors *)
    if isNaN (getTime date) then Return false
    else
      (* D -- check for semantically incorrect date strings *)
      parts <~ String_split isHyphen dateString ;;
      let comps := map Number parts in
      let year := item comps 0 in
      let month := item comps 1 in
      let day := item comps 2 in
      if negb (DateUtils.isValidDateComponents h year month day)
      then Return false
      else Return true.

Definition isValidFormattedString (h : Host) (formattedDate : arg)
  : outcome bool :=
  (* A -- check whether the string follows the supported schemas; the
     second pattern is only tried when the first does not match *)
  dotted <~ RegExp_test (shortRegex ".") formattedDate ;;
  matched <~ (if dotted then Return true
              else RegExp_test (shortRegex "/") formattedDate) ;;
  if negb matched then Return false
  else
    (* B -- parse the components and check them *)
    comps <~ getCompsFromFormatted formattedDate ;;
    let day := item comps 0 in
    let month := item comps 1 in
    let year := item comps 2 in
    if negb (DateUtils.isValidDateComponents h year month day)
    then Return false
    else Return true.

(** [typeof x === "string"] *)
Definition isString (x : arg + Date) : bool :=
  match x with
  | inl (AString _) => true
  | _ => false
  end.

(** A value that is not a string is returned as it is. *)
Definition getDateObject (h : Host) (dateOrString : arg + Date)
  : outcome (arg + Date) :=
  match dateOrString with
  | inl (AString s) =>
      iso <~ isValidISODateString h (AString s) ;;
      if iso then
        date <~ newDate h (AString s) ;; Return (inr date)
      else
        formatted <~ isValidFormattedString h (AString s) ;;
        if formatted then
          date <~ createDateFromFormatted (AString s) ;; Return (inr date)
        else Raise (Thrown (DateUtils.InvalidDateError s))
  | other => Return other
  end.

End Runtime.

(** * Properties *)

Ltac divmod := Z.div_mod_to_equations; lia.

(** ** The time model *)
Module EcmaFacts.
Import Ecma Calendar.

Lemma DayFromYear_succ y : DayFromYear (y + 1) = DayFromYear y + DaysInYear y.
Proof.
  unfold DayFromYear, DaysInYear, isLeapYear.
  destruct (y mod 4 =? 0) eqn:E4; destruct (y mod 100 =? 0) eqn:E100;
  destruct (y mod 400 =? 0) eqn:E400; cbn [andb orb negb];
  rewrite ?Z.eqb_eq, ?Z.eqb_neq in *; divmod.
Qed.

Lemma DaysInYear_cases y : DaysInYear y = 365 \/ DaysInYear y = 366.
Proof. unfold DaysInYear. destruct (isLeapYear y); auto. Qed.

Lemma DayFromYear_mono y1 y2 : y1 <= y2 -> DayFromYear y1 <= DayFromYear y2.
Proof. intros H. unfold DayFromYear. divmod. Qed.

Lemma DayFromYear_lt y1 y2 : y1 < y2 -> DayFromYear y1 < DayFromYear y2.
Proof. intros H. unfold DayFromYear. divmod. Qed.

Lemma YearFromDay_spec d :
  DayFromYear (YearFromDay d) <= d < DayFromYear (YearFromDay d + 1).
Proof.
  unfold YearFromDay.
  set (y := 1970 + 400 * d / 146097).
  assert (Hy : 146097 * (y - 1970) <= 400 * d < 146097 * (y - 1970) + 146097)
    by (unfold y; divmod).
  clearbody y.
  destruct (d <? DayFromYear y) eqn:E1.
  - apply Z.ltb_lt in E1. replace (y - 1 + 1) with y by lia.
    split; [|exact E1]. unfold DayFromYear in *. divmod.
  - apply Z.ltb_ge in E1. destruct (DayFromYear (y + 1) <=? d) eqn:E2.
    + apply Z.leb_le in E2. split; [exact E2|]. unfold DayFromYear in *. divmod.
    + apply Z.leb_gt in E2. lia.
Qed.

Lemma YearFromDay_unique d y :
  DayFromYear y <= d < DayFromYear (y + 1) -> YearFromDay d = y.
Proof.
  intros H. pose proof (YearFromDay_spec d) as S.
  destruct (Z.lt_trichotomy (YearFromDay d) y) as [L | [E | G]]; [|exact E|].
  - pose proof (DayFromYear_mono (YearFromDay d + 1) y ltac:(lia)). lia.
  - pose proof (DayFromYear_mono (y + 1) (YearFromDay d) ltac:(lia)). lia.
Qed.

Lemma Day_MakeDate day r : 0 <= r < msPerDay -> Day (MakeDate day r) = day.
Proof.
  intros H. unfold Day, MakeDate, msPerDay in *. divmod.
Qed.

Lemma DayWithinYear_bounds t :
  0 <= DayWithinYear t < DaysInYear (YearFromTime t).
Proof.
  unfold DayWithinYear, YearFromTime.
  pose proof (YearFromDay_spec (Day t)) as S.
  rewrite DayFromYear_succ in S. lia.
Qed.

Lemma InLeapYear_DaysInYear t : DaysInYear (YearFromTime t) = 365 + InLeapYear t.
Proof. unfold DaysInYear, InLeapYear. destruct (isLeapYear _); reflexivity. Qed.

(** Whatever the time value, its year, month and day of month are a real
    calendar date. *)
Lemma components_real t :
  realDate (YearFromTime t) (MonthFromTime t + 1) (DateFromTime t) = true.
Proof.
  pose proof (DayWithinYear_bounds t) as B.
  rewrite InLeapYear_DaysInYear in B.
  unfold realDate, DateFromTime, MonthFromTime, daysInMonth.
  unfold InLeapYear in *.
  set (w := DayWithinYear t) in *. clearbody w.
  destruct (isLeapYear (YearFromTime t));
  repeat match goal with
         | |- context [if ?a <? ?b then _ else _] =>
             destruct (Z.ltb_spec a b)
         end; cbn [Z.add Pos.add Pos.succ monthStart];
  rewrite !andb_true_iff, !Z.leb_le; cbn; lia.
Qed.

Lemma MakeDay_in_year y m d :
  0 <= m <= 11 ->
  MakeDay y m d
  = DayFromYear y + monthStart (if isLeapYear y then 1 else 0) m + d - 1.
Proof.
  intros H. unfold MakeDay.
  rewrite (Z.div_small m 12), (Z.mod_small m 12), Z.add_0_r by lia.
  reflexivity.
Qed.

Lemma year_of_day t y w :
  Day t = DayFromYear y + w -> 0 <= w < DaysInYear y ->
  YearFromTime t = y /\ DayWithinYear t = w
  /\ InLeapYear t = (if isLeapYear y then 1 else 0).
Proof.
  intros Ht Hw.
  assert (Hy : YearFromTime t = y).
  { unfold YearFromTime. apply YearFromDay_unique.
    rewrite DayFromYear_succ. lia. }
  unfold DayWithinYear, InLeapYear. rewrite Hy. repeat split. lia.
Qed.

Ltac month_cases m H :=
  assert (H : m = 1 \/ m = 2 \/ m = 3 \/ m = 4 \/ m = 5 \/ m = 6 \/ m = 7
              \/ m = 8 \/ m = 9 \/ m = 10 \/ m = 11 \/ m = 12) by lia;
  repeat (destruct H as [H | H]).

Ltac eval_monthStart :=
  repeat match goal with
         | |- context [monthStart ?l ?m] =>
             let v := eval vm_compute in (monthStart l m) in
             change (monthStart l m) with v
         | H : context [monthStart ?l ?m] |- _ =>
             let v := eval vm_compute in (monthStart l m) in
             change (monthStart l m) with v in H
         end.

Ltac split_ltb :=
  repeat match goal with
         | |- context [if ?a <? ?b then _ else _] =>
             destruct (Z.ltb_spec a b); try lia
         end.

(** The day number of a real calendar date lies within its year. *)
Lemma MakeDay_within_year y m d :
  realDate y m d = true ->
  0 <= monthStart (if isLeapYear y then 1 else 0) (m - 1) + d - 1
    < DaysInYear y
  /\ MakeDay y (m - 1) d
     = DayFromYear y
       + (monthStart (if isLeapYear y then 1 else 0) (m - 1) + d - 1).
Proof.
  intros Hreal. unfold realDate in Hreal.
  rewrite !andb_true_iff, !Z.leb_le in Hreal.
  destruct Hreal as [[[Hm1 Hm2] Hd1] Hd2].
  split; [|rewrite MakeDay_in_year by lia; ring].
  unfold DaysInYear. month_cases m Hc; subst m;
    cbv beta iota delta [daysInMonth] in Hd2;
    destruct (isLeapYear y); cbv beta iota in *; eval_monthStart; lia.
Qed.

Lemma MakeDay_bounds y m d :
  realDate y m d = true ->
  DayFromYear y <= MakeDay y (m - 1) d < DayFromYear (y + 1).
Proof.
  intros H. destruct (MakeDay_within_year y m d H) as [Hw ->].
  rewrite DayFromYear_succ. lia.
Qed.

(** A real calendar date survives the trip through a time value: at any
    moment of the day [MakeDay y (m - 1) d], the components are [y],
    [m - 1] and [d] again. *)
Lemma components_MakeDay y m d r :
  realDate y m d = true -> 0 <= r < msPerDay ->
  let t := MakeDate (MakeDay y (m - 1) d) r in
  YearFromTime t = y /\ MonthFromTime t = m - 1 /\ DateFromTime t = d.
Proof.
  intros Hreal Hr t.
  destruct (MakeDay_within_year y m d Hreal) as [Hw Hmk].
  assert (Hday : Day t = MakeDay y (m - 1) d) by (apply Day_MakeDate; exact Hr).
  rewrite Hmk in Hday. clearbody t.
  destruct (year_of_day t y _ Hday Hw) as (Hy & Hwy & Hly).
  unfold realDate in Hreal.
  rewrite !andb_true_iff, !Z.leb_le in Hreal.
  destruct Hreal as [[[Hm1 Hm2] Hd1] Hd2].
  assert (Hmo : MonthFromTime t = m - 1).
  { unfold MonthFromTime. rewrite Hwy, Hly. clear Hw Hwy Hly Hy Hday Hmk.
    month_cases m Hc; subst m;
      cbv beta iota delta [daysInMonth] in Hd2;
      destruct (isLeapYear y); cbv beta iota in *; eval_monthStart;
      split_ltb; lia. }
  repeat split; [exact Hy | exact Hmo |].
  unfold DateFromTime. rewrite Hmo, Hwy, Hly. lia.
Qed.

(** Conversely, the day number of a time value is the one [MakeDay] gives
    for its components. *)
Lemma Day_of_components t :
  Day t = MakeDay (YearFromTime t) (MonthFromTime t) (DateFromTime t).
Proof.
  assert (Hm : 0 <= MonthFromTime t <= 11)
    by (unfold MonthFromTime; split_ltb; lia).
  rewrite MakeDay_in_year by exact Hm.
  unfold DateFromTime, DayWithinYear, InLeapYear.
  destruct (isLeapYear (YearFromTime t)); lia.
Qed.

End EcmaFacts.

(** ** Texts, patterns and components *)
Module TextFacts.
Import Text Dialect.

Lemma digit_inv c :
  isDigit c = true ->
  0 <= digitValue c <= 9 /\ digitChar (digitValue c) = c
  /\ isHyphen c = false /\ isShortSeparator c = false.
Proof.
  destruct c as [[] [] [] [] [] [] [] []]; vm_compute; intuition congruence.
Qed.

Lemma digitChar_digit v :
  0 <= v <= 9 ->
  isDigit (digitChar v) = true /\ digitValue (digitChar v) = v.
Proof.
  intros H.
  assert (C : v = 0 \/ v = 1 \/ v = 2 \/ v = 3 \/ v = 4 \/ v = 5 \/ v = 6
              \/ v = 7 \/ v = 8 \/ v = 9) by lia.
  repeat (destruct C as [-> | C]; [split; reflexivity|]).
  subst v; split; reflexivity.
Qed.

Lemma isDigit_digitChar v : 0 <= v <= 9 -> isDigit (digitChar v) = true.
Proof. intros H. apply digitChar_digit, H. Qed.

Lemma digitValue_digitChar v : 0 <= v <= 9 -> digitValue (digitChar v) = v.
Proof. intros H. apply digitChar_digit, H. Qed.

Lemma isDigit_not_lit (a c : ascii) :
  isDigit a = false -> isDigit c = true -> Ascii.eqb a c = false.
Proof.
  intros Ha Hc. destruct (Ascii.eqb_spec a c) as [-> | _]; congruence.
Qed.

(** The digits of a two-digit and of a four-digit number. *)
Lemma pad2_digits n :
  0 <= n <= 99 -> 0 <= n / 10 <= 9 /\ 0 <= n mod 10 <= 9.
Proof. intros H. divmod. Qed.

Lemma pad4_digits n :
  0 <= n <= 9999 ->
  0 <= n / 1000 <= 9 /\ 0 <= (n / 100) mod 10 <= 9
  /\ 0 <= (n / 10) mod 10 <= 9 /\ 0 <= n mod 10 <= 9.
Proof. intros H. divmod. Qed.

Lemma Number_pad2 n : 0 <= n <= 99 -> Number (pad2 n) = Some n.
Proof.
  intros H. destruct (pad2_digits n H) as [H1 H2].
  unfold Number, pad2. cbn [digitsValue].
  rewrite !isDigit_digitChar, !digitValue_digitChar by assumption.
  f_equal. divmod.
Qed.

Lemma Number_pad4 n : 0 <= n <= 9999 -> Number (pad4 n) = Some n.
Proof.
  intros H. destruct (pad4_digits n H) as (H1 & H2 & H3 & H4).
  unfold Number, pad4. cbn [digitsValue].
  rewrite !isDigit_digitChar, !digitValue_digitChar by assumption.
  f_equal. divmod.
Qed.

Lemma allDigits_pad2 n : 0 <= n <= 99 -> allDigits (pad2 n) = true.
Proof.
  intros H. destruct (pad2_digits n H) as [H1 H2].
  unfold pad2. cbn [allDigits]. now rewrite !isDigit_digitChar.
Qed.

Lemma allDigits_pad4 n : 0 <= n <= 9999 -> allDigits (pad4 n) = true.
Proof.
  intros H. destruct (pad4_digits n H) as (H1 & H2 & H3 & H4).
  unfold pad4. cbn [allDigits]. now rewrite !isDigit_digitChar.
Qed.

Section Split.
Variable sep : ascii -> bool.
Hypothesis sep_no_digit : forall c, isDigit c = true -> sep c = false.

Lemma split_digits s : allDigits s = true -> split sep s = [s].
Proof.
  induction s as [|c r IH]; cbn; [reflexivity|].
  intros H. apply andb_true_iff in H as [Hc Hr].
  rewrite (sep_no_digit c Hc), (IH Hr). reflexivity.
Qed.

Lemma split_digits_sep s c r :
  allDigits s = true -> sep c = true ->
  split sep (s ++ String c r) = s :: split sep r.
Proof.
  intros Hs Hc. induction s as [|a s IH]; cbn.
  - now rewrite Hc.
  - cbn in Hs. apply andb_true_iff in Hs as [Ha Hs].
    rewrite (sep_no_digit a Ha), (IH Hs). reflexivity.
Qed.
End Split.

Lemma isHyphen_no_digit c : isDigit c = true -> isHyphen c = false.
Proof. intros H. apply digit_inv, H. Qed.

Lemma isShortSeparator_no_digit c :
  isDigit c = true -> isShortSeparator c = false.
Proof. intros H. apply digit_inv, H. Qed.

Lemma fits_inWidth y m d : fits y m d = true <-> inWidth y m d.
Proof.
  unfold fits, inWidth. rewrite !andb_true_iff, !Z.leb_le. tauto.
Qed.

Lemma split_isoText y m d :
  inWidth y m d ->
  map Number (split isHyphen (isoText y m d)) = [Some y; Some m; Some d].
Proof.
  intros (Hy & Hm & Hd). unfold isoText.
  rewrite !(split_digits_sep _ isHyphen_no_digit), (split_digits _ isHyphen_no_digit)
    by (auto using allDigits_pad2, allDigits_pad4).
  cbn [map]. now rewrite Number_pad4, !Number_pad2.
Qed.

Lemma split_shortText sep y m d :
  isShortSeparator sep = true -> inWidth y m d ->
  DateUtils.getCompsFromFormatted (shortText sep y m d)
  = [Some d; Some m; Some y].
Proof.
  intros Hsep (Hy & Hm & Hd). unfold DateUtils.getCompsFromFormatted, shortText.
  rewrite !(split_digits_sep _ isShortSeparator_no_digit),
    (split_digits _ isShortSeparator_no_digit)
    by (auto using allDigits_pad2, allDigits_pad4).
  cbn [map]. now rewrite Number_pad4, !Number_pad2.
Qed.

(** Matching the patterns. *)
Ltac digits_of y m d Hy Hm Hd :=
  let H1 := fresh in let H2 := fresh in let H3 := fresh in let H4 := fresh in
  destruct (pad4_digits y Hy) as (H1 & H2 & H3 & H4);
  let H5 := fresh in let H6 := fresh in
  destruct (pad2_digits m Hm) as (H5 & H6);
  let H7 := fresh in let H8 := fresh in
  destruct (pad2_digits d Hd) as (H7 & H8).

Lemma test_isoRegex_isoText y m d :
  inWidth y m d -> test isoRegex (isoText y m d) = true.
Proof.
  intros (Hy & Hm & Hd). digits_of y m d Hy Hm Hd.
  cbn. now rewrite !isDigit_digitChar.
Qed.

Lemma test_shortRegex_shortText sep y m d :
  inWidth y m d -> test (shortRegex sep) (shortText sep y m d) = true.
Proof.
  intros (Hy & Hm & Hd). digits_of y m d Hy Hm Hd.
  cbn [test shortRegex shortText pad2 pad4 append].
  now rewrite !isDigit_digitChar, !Ascii.eqb_refl.
Qed.

(** No text matches two patterns: the third character is a digit in the
    ISO form and the separator in the short forms, and the two short forms
    differ in their separator. *)
Lemma test_shortRegex_isoText sep y m d :
  isDigit sep = false -> inWidth y m d ->
  test (shortRegex sep) (isoText y m d) = false.
Proof.
  intros Hsep (Hy & Hm & Hd). digits_of y m d Hy Hm Hd.
  cbn [test shortRegex isoText pad2 pad4 append].
  rewrite !isDigit_digitChar by assumption.
  rewrite (isDigit_not_lit sep) by auto using isDigit_digitChar.
  reflexivity.
Qed.

Lemma test_isoRegex_shortText sep y m d :
  isDigit sep = false -> inWidth y m d ->
  test isoRegex (shortText sep y m d) = false.
Proof.
  intros Hsep (Hy & Hm & Hd). digits_of y m d Hy Hm Hd.
  cbn [test isoRegex shortText pad2 pad4 append].
  rewrite !isDigit_digitChar by assumption.
  rewrite Hsep. reflexivity.
Qed.

Lemma test_shortRegex_other sep sep' y m d :
  sep <> sep' -> inWidth y m d ->
  test (shortRegex sep) (shortText sep' y m d) = false.
Proof.
  intros Hsep (Hy & Hm & Hd). digits_of y m d Hy Hm Hd.
  cbn [test shortRegex shortText pad2 pad4 append].
  rewrite !isDigit_digitChar by assumption.
  destruct (Ascii.eqb_spec sep sep'); [contradiction | reflexivity].
Qed.

(** Every text that matches a pattern is the text of some components. *)
Lemma pad2_of_digits a b :
  isDigit a = true -> isDigit b = true ->
  let n := 10 * digitValue a + digitValue b in
  0 <= n <= 99 /\ pad2 n = String a (String b EmptyString).
Proof.
  intros Ha Hb n.
  destruct (digit_inv a Ha) as (Ra & Ca & _).
  destruct (digit_inv b Hb) as (Rb & Cb & _).
  split; [lia|]. unfold pad2.
  replace (n / 10) with (digitValue a) by (unfold n; divmod).
  replace (n mod 10) with (digitValue b) by (unfold n; divmod).
  now rewrite Ca, Cb.
Qed.

Lemma pad4_of_digits a b c e :
  isDigit a = true -> isDigit b = true -> isDigit c = true ->
  isDigit e = true ->
  let n := 1000 * digitValue a + 100 * digitValue b + 10 * digitValue c
           + digitValue e in
  0 <= n <= 9999
  /\ pad4 n = String a (String b (String c (String e EmptyString))).
Proof.
  intros Ha Hb Hc He n.
  destruct (digit_inv a Ha) as (Ra & Ca & _).
  destruct (digit_inv b Hb) as (Rb & Cb & _).
  destruct (digit_inv c Hc) as (Rc & Cc & _).
  destruct (digit_inv e He) as (Re & Ce & _).
  split; [lia|]. unfold pad4.
  replace (n / 1000) with (digitValue a) by (unfold n; divmod).
  replace ((n / 100) mod 10) with (digitValue b) by (unfold n; divmod).
  replace ((n / 10) mod 10) with (digitValue c) by (unfold n; divmod).
  replace (n mod 10) with (digitValue e) by (unfold n; divmod).
  now rewrite Ca, Cb, Cc, Ce.
Qed.

Lemma test_isoRegex_inv s :
  test isoRegex s = true ->
  exists y m d, inWidth y m d /\ s = isoText y m d.
Proof.
  intros H.
  destruct s as [|y1 [|y2 [|y3 [|y4 [|h1 [|m1 [|m2 [|h2 [|d1 [|d2 [|]]]]]]]]]]];
    try discriminate H;
    cbn [test isoRegex] in H;
    rewrite ?andb_true_iff in H;
    try (decompose [and] H; discriminate).
  destruct H as (Y1 & Y2 & Y3 & Y4 & E1 & M1 & M2 & E2 & D1 & D2 & _).
  apply Ascii.eqb_eq in E1, E2. subst h1 h2.
  destruct (pad4_of_digits y1 y2 y3 y4 Y1 Y2 Y3 Y4) as [Ry Py].
  destruct (pad2_of_digits m1 m2 M1 M2) as [Rm Pm].
  destruct (pad2_of_digits d1 d2 D1 D2) as [Rd Pd].
  eexists _, _, _. split; [exact (conj Ry (conj Rm Rd))|].
  unfold isoText. rewrite Py, Pm, Pd. reflexivity.
Qed.

Lemma test_shortRegex_inv sep s :
  test (shortRegex sep) s = true ->
  exists y m d, inWidth y m d /\ s = shortText sep y m d.
Proof.
  intros H.
  destruct s as [|d1 [|d2 [|h1 [|m1 [|m2 [|h2 [|y1 [|y2 [|y3 [|y4 [|]]]]]]]]]]];
    try discriminate H;
    cbn [test shortRegex] in H;
    rewrite ?andb_true_iff in H;
    try (decompose [and] H; discriminate).
  destruct H as (D1 & D2 & E1 & M1 & M2 & E2 & Y1 & Y2 & Y3 & Y4 & _).
  apply Ascii.eqb_eq in E1, E2. subst h1 h2.
  destruct (pad4_of_digits y1 y2 y3 y4 Y1 Y2 Y3 Y4) as [Ry Py].
  destruct (pad2_of_digits m1 m2 M1 M2) as [Rm Pm].
  destruct (pad2_of_digits d1 d2 D1 D2) as [Rd Pd].
  eexists _, _, _. split; [exact (conj Ry (conj Rm Rd))|].
  unfold shortText. rewrite Py, Pm, Pd. reflexivity.
Qed.

End TextFacts.

(** ** The date utilities *)
Module DateFacts.
Import Ecma Calendar Text JSDate DateUtils Dialect EcmaFacts TextFacts.

Lemma strictEq_true a b : strictEq a (Some b) = true -> a = Some b.
Proof.
  destruct a as [x|]; cbn; [|discriminate].
  intros H. apply Z.eqb_eq in H. now subst.
Qed.

(** What the round-trip check establishes: the local components of the
    date assembled from the inputs are the inputs. *)
Lemma valid_components_inv h y m d :
  isValidDateComponents h (Some y) (Some m) (Some d) = true ->
  exists t, Date_UTC y (m - 1) d = Some t
    /\ YearFromTime (LocalTime h t) = y
    /\ MonthFromTime (LocalTime h t) = m - 1
    /\ DateFromTime (LocalTime h t) = d.
Proof.
  unfold isValidDateComponents, createDateFromComps. cbn [sub1 option_map newDateUTC].
  destruct (Date_UTC y (m - 1) d) as [t|]; cbn; [|discriminate].
  rewrite !andb_true_iff, !Z.eqb_eq. intros [[Hy Hm] Hd]. now exists t.
Qed.

Lemma valid_components_NaN h year month day :
  year = None \/ month = None \/ day = None ->
  isValidDateComponents h year month day = false.
Proof.
  unfold isValidDateComponents, createDateFromComps, newDateUTC.
  destruct year as [y|], month as [m|], day as [d|]; intros H;
    try (destruct H as [H | [H | H]]; discriminate H);
    cbn; rewrite ?andb_false_r; reflexivity.
Qed.

(** On every host, components that pass the check are a real calendar
    date. *)
Lemma valid_components_real h y m d :
  isValidDateComponents h (Some y) (Some m) (Some d) = true ->
  realDate y m d = true.
Proof.
  intros H. destruct (valid_components_inv h y m d H) as (t & _ & Hy & Hm & Hd).
  pose proof (components_real (LocalTime h t)) as R.
  rewrite Hy, Hm, Hd in R. now replace (m - 1 + 1) with m in R by lia.
Qed.

Lemma monthStart_bounds l k :
  0 <= l <= 1 -> 0 <= k <= 11 -> 0 <= monthStart l k <= 335.
Proof.
  intros Hl Hk.
  assert (C : k = 0 \/ k = 1 \/ k = 2 \/ k = 3 \/ k = 4 \/ k = 5 \/ k = 6
              \/ k = 7 \/ k = 8 \/ k = 9 \/ k = 10 \/ k = 11) by lia.
  repeat (destruct C as [-> | C]; [cbn [monthStart]; lia|]).
  subst k. cbn [monthStart]. lia.
Qed.

Lemma realDate_bounds y m d :
  realDate y m d = true -> 1 <= m <= 12 /\ 1 <= d <= 31.
Proof.
  unfold realDate. rewrite !andb_true_iff, !Z.leb_le.
  intros [[[Hm1 Hm2] Hd1] Hd2]. split; [lia|].
  split; [lia|]. revert Hd2. unfold daysInMonth.
  month_cases m C; subst m; destruct (isLeapYear y); lia.
Qed.

Lemma Day_LocalTime_bounded h day :
  boundedZone h ->
  day - 1 <= Day (LocalTime h (MakeDate day 0)) <= day.
Proof.
  intros Hz. specialize (Hz (MakeDate day 0)).
  unfold LocalTime, Day, MakeDate, msPerDay in *. divmod.
Qed.

Lemma TimeClip_inv t t' : TimeClip t = Some t' -> t' = t.
Proof. unfold TimeClip. destruct (_ <? _); congruence. Qed.

Lemma Date_UTC_legacy y m d :
  0 <= y <= 99 ->
  Date_UTC y m d = TimeClip (MakeDate (MakeDay (1900 + y) m d) 0).
Proof.
  intros Hy. unfold Date_UTC.
  destruct (Z.leb_spec 0 y); destruct (Z.leb_spec y 99); cbn [andb];
    try reflexivity; lia.
Qed.

Lemma legacy_year_components h y m d :
  isValidDateComponents h (Some y) (Some m) (Some d) = true ->
  0 <= y <= 99 ->
  1 <= m <= 12 /\ 1 <= d
  /\ YearFromTime (LocalTime h (MakeDate (MakeDay (1900 + y) (m - 1) d) 0)) = y.
Proof.
  intros H Hy.
  destruct (realDate_bounds y m d (valid_components_real h y m d H)) as [Hm Hd].
  destruct (valid_components_inv h y m d H) as (t & Ht & Ey & _).
  rewrite Date_UTC_legacy in Ht by exact Hy.
  apply TimeClip_inv in Ht. subst t.
  split; [exact Hm|]. split; [apply Hd | exact Ey].
Qed.

Lemma MakeDay_after_year_start y m d :
  1 <= m <= 12 -> 1 <= d -> DayFromYear y <= MakeDay y (m - 1) d.
Proof.
  intros Hm Hd. rewrite MakeDay_in_year by lia.
  pose proof (monthStart_bounds (if isLeapYear y then 1 else 0) (m - 1)
                ltac:(destruct (isLeapYear y); lia) ltac:(lia)).
  lia.
Qed.

Lemma local_year_late h y day :
  boundedZone h -> DayFromYear (1900 + y) <= day ->
  YearFromTime (LocalTime h (MakeDate day 0)) <> y.
Proof.
  intros Hz Hday Ey.
  pose proof (Day_LocalTime_bounded h day Hz) as B.
  unfold YearFromTime in Ey.
  set (ld := Day (LocalTime h (MakeDate day 0))) in *.
  clearbody ld.
  pose proof (YearFromDay_spec ld) as S. rewrite Ey in S.
  pose proof (DayFromYear_lt (y + 1) (1900 + y) ltac:(lia)). lia.
Qed.

(** With offsets within a day of UTC, a year 0..99 never passes:
    [Date.UTC] moves it to 1900..1999. *)
Lemma valid_components_year h y m d :
  boundedZone h ->
  isValidDateComponents h (Some y) (Some m) (Some d) = true ->
  ~ 0 <= y <= 99.
Proof.
  intros Hz H Hy.
  destruct (legacy_year_components h y m d H Hy) as (Hm & Hd & Ey).
  exact (local_year_late h y _ Hz (MakeDay_after_year_start _ m d Hm Hd) Ey).
Qed.

(** The time value of a real date of the years 0..9999 is within the range
    of [TimeClip]. *)
Lemma TimeClip_utcMidnight y m d :
  0 <= y <= 9999 -> realDate y m d = true ->
  TimeClip (utcMidnight y m d) = Some (utcMidnight y m d).
Proof.
  intros Hy R. pose proof (MakeDay_bounds y m d R) as B.
  pose proof (DayFromYear_mono 0 y ltac:(lia)) as L.
  pose proof (DayFromYear_mono (y + 1) 10000 ltac:(lia)) as U.
  change (DayFromYear 0) with (-719528) in L.
  change (DayFromYear 10000) with 2932897 in U.
  unfold TimeClip, utcMidnight, MakeDate, msPerDay.
  destruct (Z.ltb_spec 8640000000000000
              (Z.abs (MakeDay y (m - 1) d * 86400000 + 0))); [lia | reflexivity].
Qed.

Lemma Date_UTC_utcMidnight y m d :
  ~ 0 <= y <= 99 -> Date_UTC y (m - 1) d = TimeClip (utcMidnight y m d).
Proof.
  intros Hy. unfold Date_UTC, utcMidnight.
  destruct (Z.leb_spec 0 y); destruct (Z.leb_spec y 99); cbn [andb];
    try reflexivity; lia.
Qed.

(** East of Greenwich (and at UTC) the check accepts every real date from
    the year 100 on. *)
Lemma valid_components_east h y m d :
  eastwardZone h -> 100 <= y <= 9999 -> realDate y m d = true ->
  isValidDateComponents h (Some y) (Some m) (Some d) = true.
Proof.
  intros Hz Hy R.
  unfold isValidDateComponents, createDateFromComps.
  cbn [sub1 option_map newDateUTC].
  rewrite Date_UTC_utcMidnight, TimeClip_utcMidnight by (assumption || lia).
  cbn [getFullYear getMonth getDate option_map strictEq].
  unfold LocalTime, utcMidnight.
  replace (MakeDate (MakeDay y (m - 1) d) 0
           + LocalTZA h (MakeDate (MakeDay y (m - 1) d) 0))
    with (MakeDate (MakeDay y (m - 1) d)
            (LocalTZA h (MakeDate (MakeDay y (m - 1) d) 0)))
    by (unfold MakeDate; ring).
  destruct (components_MakeDay y m d
              (LocalTZA h (MakeDate (MakeDay y (m - 1) d) 0)) R (Hz _))
    as (-> & -> & ->).
  now rewrite !Z.eqb_refl.
Qed.

(** West of Greenwich the local day is the day before the UTC day, and the
    check accepts nothing. *)
Lemma valid_components_west h year month day :
  westwardZone h -> isValidDateComponents h year month day = false.
Proof.
  intros Hz.
  destruct year as [y|]; [|apply valid_components_NaN; auto].
  destruct month as [m|]; [|apply valid_components_NaN; auto].
  destruct day as [d|]; [|apply valid_components_NaN; auto].
  destruct (isValidDateComponents h (Some y) (Some m) (Some d)) eqn:H;
    [exfalso | reflexivity].
  destruct (realDate_bounds y m d (valid_components_real h y m d H)) as [Hm Hd].
  destruct (valid_components_inv h y m d H) as (t & Ht & Ey & Em & Ed).
  pose proof (Day_of_components (LocalTime h t)) as D.
  rewrite Ey, Em, Ed in D.
  unfold Date_UTC in Ht. apply TimeClip_inv in Ht. subst t.
  specialize (Hz (MakeDate
    (MakeDay (if (0 <=? y) && (y <=? 99) then 1900 + y else y) (m - 1) d) 0)).
  assert (L : Day (LocalTime h (MakeDate
    (MakeDay (if (0 <=? y) && (y <=? 99) then 1900 + y else y) (m - 1) d) 0))
    = MakeDay (if (0 <=? y) && (y <=? 99) then 1900 + y else y) (m - 1) d - 1).
  { unfold LocalTime, Day, MakeDate, msPerDay in *. divmod. }
  rewrite L in D. clear L Hz Ey Em Ed H.
  destruct ((0 <=? y) && (y <=? 99)); [|lia].
  rewrite !MakeDay_in_year in D by lia.
  pose proof (monthStart_bounds (if isLeapYear (1900 + y) then 1 else 0) (m - 1)
                ltac:(destruct (isLeapYear (1900 + y)); lia) ltac:(lia)).
  pose proof (monthStart_bounds (if isLeapYear y then 1 else 0) (m - 1)
                ltac:(destruct (isLeapYear y); lia) ltac:(lia)).
  assert (DayFromYear y + 365 * 1900 <= DayFromYear (1900 + y))
    by (unfold DayFromYear; divmod).
  lia.
Qed.


(** *** The validators on the texts of each dialect *)

Lemma newDateFromString_isoText h y m d :
  inWidth y m d ->
  newDateFromString h (isoText y m d)
  = if (1 <=? m) && (m <=? 12) && (1 <=? d)
       && (d <=? (if isoDayRollover h then 31 else daysInMonth y m))
    then TimeClip (utcMidnight y m d) else None.
Proof.
  intros W. unfold newDateFromString.
  now rewrite test_isoRegex_isoText, split_isoText.
Qed.

Lemma newDateFromString_real h y m d :
  inWidth y m d -> realDate y m d = true ->
  newDateFromString h (isoText y m d) = Some (utcMidnight y m d).
Proof.
  intros W R. rewrite newDateFromString_isoText by exact W.
  destruct (realDate_bounds y m d R) as [Hm Hd].
  rewrite TimeClip_utcMidnight by (assumption || apply W).
  unfold realDate in R.
  destruct (isoDayRollover h); [|now rewrite R].
  apply andb_true_iff in R as [R _]. rewrite R.
  destruct (Z.leb_spec d 31); [reflexivity | lia].
Qed.

(** On a text in the ISO form the ISO validator is the round-trip check
    on its components: step C never decides on its own. *)
Lemma isValidISODateString_isoText h y m d :
  inWidth y m d ->
  isValidISODateString h (isoText y m d)
  = isValidDateComponents h (Some y) (Some m) (Some d).
Proof.
  intros W. unfold isValidISODateString.
  rewrite test_isoRegex_isoText, split_isoText by exact W.
  cbn [negb item nth].
  destruct (isValidDateComponents h (Some y) (Some m) (Some d)) eqn:V.
  - rewrite newDateFromString_real
      by (assumption || exact (valid_components_real h y m d V)).
    reflexivity.
  - cbn [negb]. now destruct (isNaN _).
Qed.

Lemma shortSeparator_cases sep :
  sep = "."%char \/ sep = "/"%char ->
  isShortSeparator sep = true /\ isDigit sep = false.
Proof. intros [-> | ->]; split; reflexivity. Qed.

Lemma isValidFormattedString_shortText h sep y m d :
  sep = "."%char \/ sep = "/"%char -> inWidth y m d ->
  isValidFormattedString h (shortText sep y m d)
  = isValidDateComponents h (Some y) (Some m) (Some d).
Proof.
  intros Hsep W. destruct (shortSeparator_cases sep Hsep) as [S _].
  unfold isValidFormattedString.
  rewrite split_shortText by assumption. cbn [item nth].
  replace (test (shortRegex ".") (shortText sep y m d)
           || test (shortRegex "/") (shortText sep y m d)) with true.
  - cbn [negb]. now destruct (isValidDateComponents _ _ _ _).
  - symmetry. apply orb_true_iff.
    destruct Hsep as [-> | ->]; [left | right];
      now apply test_shortRegex_shortText.
Qed.

Lemma isValidFormattedString_isoText h y m d :
  inWidth y m d -> isValidFormattedString h (isoText y m d) = false.
Proof.
  intros W. unfold isValidFormattedString.
  now rewrite !test_shortRegex_isoText.
Qed.

Lemma isValidISODateString_shortText h sep y m d :
  sep = "."%char \/ sep = "/"%char -> inWidth y m d ->
  isValidISODateString h (shortText sep y m d) = false.
Proof.
  intros Hsep W. destruct (shortSeparator_cases sep Hsep) as [_ S].
  unfold isValidISODateString. now rewrite test_isoRegex_shortText.
Qed.

Lemma createDateFromFormatted_shortText sep y m d :
  sep = "."%char \/ sep = "/"%char -> inWidth y m d ->
  createDateFromFormatted (shortText sep y m d)
  = createDateFromComps (Some y) (Some m) (Some d).
Proof.
  intros Hsep W. destruct (shortSeparator_cases sep Hsep) as [S _].
  unfold createDateFromFormatted. now rewrite split_shortText.
Qed.

(** *** [getDateObject] on the texts of each dialect *)

Lemma getDateObject_isoText h y m d :
  inWidth y m d ->
  getDateObject h (inl (isoText y m d))
  = if isValidDateComponents h (Some y) (Some m) (Some d)
    then Ok (Some (utcMidnight y m d))
    else Throw (InvalidDateError (isoText y m d)).
Proof.
  intros W. cbn [getDateObject].
  rewrite isValidISODateString_isoText, isValidFormattedString_isoText
    by exact W.
  destruct (isValidDateComponents h (Some y) (Some m) (Some d)) eqn:V;
    [|reflexivity].
  now rewrite newDateFromString_real
    by (assumption || exact (valid_components_real h y m d V)).
Qed.

Lemma getDateObject_shortText h sep y m d :
  sep = "."%char \/ sep = "/"%char -> inWidth y m d ->
  getDateObject h (inl (shortText sep y m d))
  = if isValidDateComponents h (Some y) (Some m) (Some d)
    then Ok (createDateFromComps (Some y) (Some m) (Some d))
    else Throw (InvalidDateError (shortText sep y m d)).
Proof.
  intros Hsep W. cbn [getDateObject].
  rewrite isValidISODateString_shortText, isValidFormattedString_shortText,
    createDateFromFormatted_shortText by assumption.
  reflexivity.
Qed.

(** Every text a validator accepts is a text of its dialect. *)
Lemma isValidISODateString_inv h s :
  isValidISODateString h s = true ->
  exists y m d, inWidth y m d /\ s = isoText y m d.
Proof.
  unfold isValidISODateString. intros H.
  destruct (test isoRegex s) eqn:T; [|discriminate H].
  now apply test_isoRegex_inv.
Qed.

Lemma isValidFormattedString_inv h s :
  isValidFormattedString h s = true ->
  exists sep y m d, (sep = "."%char \/ sep = "/"%char)
    /\ inWidth y m d /\ s = shortText sep y m d.
Proof.
  unfold isValidFormattedString. intros H.
  destruct (test (shortRegex ".") s) eqn:T1.
  - destruct (test_shortRegex_inv _ _ T1) as (y & m & d & W & E).
    exists "."%char, y, m, d. auto.
  - destruct (test (shortRegex "/") s) eqn:T2; [|discriminate H].
    destruct (test_shortRegex_inv _ _ T2) as (y & m & d & W & E).
    exists "/"%char, y, m, d. auto.
Qed.

End DateFacts.

(** ** The date parser *)

Import Ecma Calendar Text JSDate DateUtils Dialect.
Import EcmaFacts TextFacts DateFacts.

(** The three patterns [getDateObject] knows. *)
Lemma dialect_text_inv s :
  test isoRegex s || test (shortRegex ".") s || test (shortRegex "/") s = true ->
  exists y m d, inWidth y m d
    /\ (s = isoText y m d \/ s = shortText "." y m d
        \/ s = shortText "/" y m d).
Proof.
  rewrite !orb_true_iff. intros [[T | T] | T].
  - destruct (test_isoRegex_inv s T) as (y & m & d & W & E). eauto 8.
  - destruct (test_shortRegex_inv _ s T) as (y & m & d & W & E). eauto 8.
  - destruct (test_shortRegex_inv _ s T) as (y & m & d & W & E). eauto 8.
Qed.

(** On a text of any dialect, [getDateObject] is decided by the round-trip
    check on the components of the text. *)
Lemma getDateObject_dialect h s y m d :
  inWidth y m d ->
  s = isoText y m d \/ s = shortText "." y m d \/ s = shortText "/" y m d ->
  getDateObject h (inl s)
  = if isValidDateComponents h (Some y) (Some m) (Some d)
    then Ok (if test isoRegex s then Some (utcMidnight y m d)
             else createDateFromComps (Some y) (Some m) (Some d))
    else Throw (InvalidDateError s).
Proof.
  intros W [-> | [-> | ->]].
  - now rewrite getDateObject_isoText, test_isoRegex_isoText.
  - now rewrite getDateObject_shortText, test_isoRegex_shortText by auto.
  - now rewrite getDateObject_shortText, test_isoRegex_shortText by auto.
Qed.

(** C1: every text that matches one of the three patterns is the text of
    some year, month and day; and whenever these are not a real calendar
    date, the round-trip check [isValidDateComponents] fails on them and
    [getDateObject] throws the invalid-date error that carries the text, on
    every host. *)
Theorem getDateObject_rejects_impossible_date (h : Host) (s : string) :
  test isoRegex s || test (shortRegex ".") s || test (shortRegex "/") s = true ->
  (exists y m d, inWidth y m d
     /\ (s = isoText y m d \/ s = shortText "." y m d
         \/ s = shortText "/" y m d))
  /\ (forall y m d, inWidth y m d ->
        s = isoText y m d \/ s = shortText "." y m d
        \/ s = shortText "/" y m d ->
        realDate y m d = false ->
        isValidDateComponents h (Some y) (Some m) (Some d) = false
        /\ getDateObject h (inl s) = Throw (InvalidDateError s)).
Proof.
  intros T. split; [exact (dialect_text_inv s T)|].
  intros y m d W E R.
  assert (V : isValidDateComponents h (Some y) (Some m) (Some d) = false).
  { destruct (isValidDateComponents h (Some y) (Some m) (Some d)) eqn:V;
      [|reflexivity].
    apply valid_components_real in V. congruence. }
  split; [exact V|].
  now rewrite (getDateObject_dialect h s y m d W E), V.
Qed.

Lemma getDateObject_rejects_impossible_date_witness :
  (test isoRegex "2025-06-31" || test (shortRegex ".") "2025-06-31"
   || test (shortRegex "/") "2025-06-31" = true
   /\ realDate 2025 6 31 = false
   /\ isValidDateComponents hostBerlin (Some 2025) (Some 6) (Some 31) = false
   /\ getDateObject hostBerlin (inl "2025-06-31"%string)
      = Throw (InvalidDateError "2025-06-31"))
  /\ getDateObject hostUTC (inl "31.06.2025"%string)
     = Throw (InvalidDateError "31.06.2025")
  /\ getDateObject hostNewYork (inl "31/06/2025"%string)
     = Throw (InvalidDateError "31/06/2025").
Proof.
  split; [|split].
  - split; [reflexivity|]. split; [reflexivity|].
    apply (proj2 (getDateObject_rejects_impossible_date hostBerlin
                    "2025-06-31" eq_refl) 2025 6 31);
      [apply fits_inWidth | left |]; reflexivity.
  - apply (proj2 (getDateObject_rejects_impossible_date hostUTC
                    "31.06.2025" eq_refl) 2025 6 31);
      [apply fits_inWidth | right; left |]; reflexivity.
  - apply (proj2 (getDateObject_rejects_impossible_date hostNewYork
                    "31/06/2025" eq_refl) 2025 6 31);
      [apply fits_inWidth | right; right |]; reflexivity.
Defined.

(** *** Which real dates are accepted *)

(** Whenever [getDateObject] accepts a text in the ISO form, the UTC
    components of the date it returns are the components of the text. *)
Lemma getDateObject_iso_sound h y m d date :
  inWidth y m d ->
  getDateObject h (inl (isoText y m d)) = Ok date ->
  realDate y m d = true
  /\ getUTCFullYear date = Some y /\ getUTCMonth date = Some (m - 1)
  /\ getUTCDate date = Some d.
Proof.
  intros W. rewrite getDateObject_isoText by exact W.
  destruct (isValidDateComponents h (Some y) (Some m) (Some d)) eqn:V;
    [|discriminate].
  intros [= <-]. apply valid_components_real in V. split; [exact V|].
  cbn [getUTCFullYear getUTCMonth getUTCDate option_map]. unfold utcMidnight.
  destruct (components_MakeDay y m d 0 V ltac:(unfold msPerDay; lia))
    as (-> & -> & ->).
  auto.
Qed.

(** East of Greenwich and at UTC, every real date from the year 100 on is
    accepted in the ISO form. *)
Lemma getDateObject_iso_east h y m d :
  eastwardZone h -> inWidth y m d -> 100 <= y -> realDate y m d = true ->
  getDateObject h (inl (isoText y m d)) = Ok (Some (utcMidnight y m d)).
Proof.
  intros Hz W Hy R. rewrite getDateObject_isoText by exact W.
  now rewrite valid_components_east by (assumption || (destruct W; lia)).
Qed.

(** West of Greenwich every text is rejected. *)
Lemma getDateObject_west h s :
  westwardZone h -> getDateObject h (inl s) = Throw (InvalidDateError s).
Proof.
  intros Hz. cbn [getDateObject].
  destruct (isValidISODateString h s) eqn:I.
  - destruct (isValidISODateString_inv h s I) as (y & m & d & W & ->).
    rewrite isValidISODateString_isoText in I by exact W.
    now rewrite valid_components_west in I.
  - destruct (isValidFormattedString h s) eqn:F; [|reflexivity].
    destruct (isValidFormattedString_inv h s F) as (sep & y & m & d & S & W & ->).
    rewrite isValidFormattedString_shortText in F by assumption.
    now rewrite valid_components_west in F.
Qed.

(** The years 0..99 are rejected wherever offsets stay within a day of
    UTC. *)
Lemma getDateObject_first_century h s y m d :
  boundedZone h -> inWidth y m d -> 0 <= y <= 99 ->
  s = isoText y m d \/ s = shortText "." y m d \/ s = shortText "/" y m d ->
  getDateObject h (inl s) = Throw (InvalidDateError s).
Proof.
  intros Hz W Hy E. rewrite (getDateObject_dialect h s y m d W E).
  destruct (isValidDateComponents h (Some y) (Some m) (Some d)) eqn:V;
    [|reflexivity].
  now destruct (valid_components_year h y m d Hz V).
Qed.

(** C2: 2020-12-31 is a real calendar date in the ISO form, and on a host
    at UTC-05:00 [getDateObject] throws on it; 0050-01-01 is a real calendar
    date in the ISO form, and at UTC [getDateObject] throws on it. *)
Theorem getDateObject_rejects_real_iso_dates :
  (isoText 2020 12 31 = "2020-12-31"%string /\ realDate 2020 12 31 = true
   /\ getDateObject hostNewYork (inl "2020-12-31"%string)
      = Throw (InvalidDateError "2020-12-31"))
  /\ (isoText 50 1 1 = "0050-01-01"%string /\ realDate 50 1 1 = true
      /\ getDateObject hostUTC (inl "0050-01-01"%string)
         = Throw (InvalidDateError "0050-01-01")).
Proof. vm_compute. repeat split. Qed.

(** East of Greenwich and at UTC the three dialects agree. *)
Lemma dialect_equivalence_east h :
  eastwardZone h ->
  getDateObject h (inl "31.12.2020"%string) = Ok (Some 1609372800000)
  /\ getDateObject h (inl "31/12/2020"%string) = Ok (Some 1609372800000)
  /\ getDateObject h (inl "2020-12-31"%string) = Ok (Some 1609372800000).
Proof.
  intros Hz.
  assert (W : inWidth 2020 12 31) by (apply fits_inWidth; reflexivity).
  assert (V : isValidDateComponents h (Some 2020) (Some 12) (Some 31) = true)
    by (apply valid_components_east; [exact Hz | lia | reflexivity]).
  split; [|split].
  - change "31.12.2020"%string with (shortText "." 2020 12 31).
    rewrite getDateObject_shortText, V by auto. reflexivity.
  - change "31/12/2020"%string with (shortText "/" 2020 12 31).
    rewrite getDateObject_shortText, V by auto. reflexivity.
  - change "2020-12-31"%string with (isoText 2020 12 31).
    rewrite getDateObject_isoText, V by auto. reflexivity.
Qed.

(** C6: on a host at UTC-05:00 none of the three texts "31.12.2020",
    "31/12/2020" and "2020-12-31" is accepted: [getDateObject] throws on
    each of them. *)
Theorem dialect_equivalence_fails_west :
  getDateObject hostNewYork (inl "31.12.2020"%string)
    = Throw (InvalidDateError "31.12.2020")
  /\ getDateObject hostNewYork (inl "31/12/2020"%string)
    = Throw (InvalidDateError "31/12/2020")
  /\ getDateObject hostNewYork (inl "2020-12-31"%string)
    = Throw (InvalidDateError "2020-12-31").
Proof. vm_compute. repeat split. Qed.

(** C8: where offsets stay within a day of UTC, [getDateObject] is the
    parser that assembles every date from its components with
    [Date.UTC(year, month - 1, day)]; each date it returns for a text is
    [createDateFromComps] of the year, month and day of the text, and on
    every text the ISO validator accepts, [new Date(text)] is that
    assembled date. *)
Theorem getDateObject_is_component_assembly (h : Host) (s : string) :
  boundedZone h ->
  getDateObject h (inl s) = Assembled.getDateObject h (inl s)
  /\ (forall date, getDateObject h (inl s) = Ok date ->
        exists y m d, inWidth y m d
          /\ (s = isoText y m d \/ s = shortText "." y m d
              \/ s = shortText "/" y m d)
          /\ date = createDateFromComps (Some y) (Some m) (Some d))
  /\ (isValidISODateString h s = true ->
        newDateFromString h s = Assembled.createDateFromISO s).
Proof.
  intros Hz.
  assert (ISO : isValidISODateString h s = true ->
                exists y m d, inWidth y m d /\ s = isoText y m d
                  /\ newDateFromString h s
                     = createDateFromComps (Some y) (Some m) (Some d)
                  /\ Assembled.createDateFromISO s
                     = createDateFromComps (Some y) (Some m) (Some d)).
  { intros I. destruct (isValidISODateString_inv h s I) as (y & m & d & W & ->).
    exists y, m, d. split; [exact W|]. split; [reflexivity|].
    rewrite isValidISODateString_isoText in I by exact W.
    pose proof (valid_components_real h y m d I) as R.
    pose proof (valid_components_year h y m d Hz I) as Y.
    split.
    - rewrite newDateFromString_real by assumption.
      unfold createDateFromComps. cbn [sub1 option_map newDateUTC].
      rewrite Date_UTC_utcMidnight, TimeClip_utcMidnight
        by (assumption || apply W).
      reflexivity.
    - unfold Assembled.createDateFromISO. now rewrite split_isoText. }
  split; [|split].
  - cbn [getDateObject Assembled.getDateObject].
    destruct (isValidISODateString h s) eqn:I; [|reflexivity].
    destruct (ISO eq_refl) as (y & m & d & _ & _ & -> & ->). reflexivity.
  - intros date. cbn [getDateObject].
    destruct (isValidISODateString h s) eqn:I.
    + destruct (ISO eq_refl) as (y & m & d & W & E & N & _).
      intros [= <-]. exists y, m, d. auto.
    + destruct (isValidFormattedString h s) eqn:F; [|discriminate].
      destruct (isValidFormattedString_inv h s F)
        as (sep & y & m & d & S & W & ->).
      intros [= <-]. exists y, m, d. split; [exact W|]. split.
      * destruct S as [-> | ->]; auto.
      * now apply createDateFromFormatted_shortText.
  - intros I. destruct (ISO I) as (y & m & d & _ & _ & -> & ->). reflexivity.
Qed.

Lemma hostUTC_bounded : boundedZone hostUTC.
Proof. intros t. cbn. unfold msPerDay. lia. Qed.

Lemma getDateObject_is_component_assembly_witness :
  boundedZone hostUTC
  /\ getDateObject hostUTC (inl "2020-12-31"%string)
     = Assembled.getDateObject hostUTC (inl "2020-12-31"%string)
  /\ newDateFromString hostUTC "2020-12-31"
     = Assembled.createDateFromISO "2020-12-31".
Proof.
  split; [exact hostUTC_bounded|].
  split.
  - exact (proj1 (getDateObject_is_component_assembly hostUTC "2020-12-31"
                    hostUTC_bounded)).
  - exact (proj2 (proj2 (getDateObject_is_component_assembly hostUTC
                           "2020-12-31" hostUTC_bounded)) eq_refl).
Defined.

(** *** The functions on untyped arguments *)

(** On a string none of the built-in operations throws: the functions of
    [Runtime] return what the definitions on strings compute. *)
Lemma Runtime_isValidISODateString_string h s :
  Runtime.isValidISODateString h (Runtime.AString s)
  = Runtime.Return (isValidISODateString h s).
Proof.
  unfold Runtime.isValidISODateString, isValidISODateString.
  cbn [Runtime.RegExp_test Runtime.ToString Runtime.andThen Runtime.newDate
       Runtime.String_split].
  destruct (test isoRegex s); cbn [negb]; [|reflexivity].
  destruct (isNaN (getTime (newDateFromString h s))); [reflexivity|].
  now destruct (isValidDateComponents h _ _ _).
Qed.

Lemma Runtime_isValidFormattedString_string h s :
  Runtime.isValidFormattedString h (Runtime.AString s)
  = Runtime.Return (isValidFormattedString h s).
Proof.
  unfold Runtime.isValidFormattedString, isValidFormattedString,
    Runtime.getCompsFromFormatted, getCompsFromFormatted.
  cbn [Runtime.RegExp_test Runtime.ToString Runtime.andThen
       Runtime.String_split].
  destruct (test (shortRegex ".") s); cbn [orb negb Runtime.andThen].
  - now destruct (isValidDateComponents h _ _ _).
  - destruct (test (shortRegex "/") s); cbn [negb]; [|reflexivity].
    now destruct (isValidDateComponents h _ _ _).
Qed.

Lemma Runtime_getDateObject_string h s :
  Runtime.getDateObject h (inl (Runtime.AString s))
  = match getDateObject h (inl s) with
    | Ok date => Runtime.Return (inr date)
    | Throw e => Runtime.Raise (Runtime.Thrown e)
    end.
Proof.
  cbn [Runtime.getDateObject getDateObject].
  rewrite Runtime_isValidISODateString_string,
    Runtime_isValidFormattedString_string.
  cbn [Runtime.andThen Runtime.newDate].
  destruct (isValidISODateString h s); [reflexivity|].
  destruct (isValidFormattedString h s); reflexivity.
Qed.

(** On other arguments they do throw: the validators on a symbol, and the
    two functions that split their argument on everything but a string;
    [undefined] and [null] make the validators return [false]. *)
Lemma Runtime_throwing_arguments h :
  Runtime.isValidISODateString h Runtime.ASymbol
    = Runtime.Raise Runtime.TypeError
  /\ Runtime.isValidFormattedString h Runtime.ASymbol
     = Runtime.Raise Runtime.TypeError
  /\ Runtime.isValidISODateString h Runtime.AUndefined = Runtime.Return false
  /\ Runtime.isValidFormattedString h Runtime.ANull = Runtime.Return false
  /\ (forall x, (forall s, x <> Runtime.AString s) ->
        Runtime.getCompsFromFormatted x = Runtime.Raise Runtime.TypeError
        /\ Runtime.createDateFromFormatted x
           = Runtime.Raise Runtime.TypeError).
Proof.
  repeat (split; [reflexivity|]).
  intros [| | |s] N; try (split; reflexivity).
  now destruct (N s).
Qed.

(** C10: run on any string, the empty one and malformed ones included,
    both validators return a boolean and throw nothing, although the
    operations they call throw on other arguments; and on a string
    [getDateObject] never throws a [TypeError]: it throws exactly when both
    validators return [false], and what it throws is then the error that
    carries the string. *)
Theorem validators_never_throw_on_strings (h : Host) (s : string) :
  Runtime.isValidISODateString h (Runtime.AString s)
    = Runtime.Return (isValidISODateString h s)
  /\ Runtime.isValidFormattedString h (Runtime.AString s)
     = Runtime.Return (isValidFormattedString h s)
  /\ Runtime.getDateObject h (inl (Runtime.AString s))
     <> Runtime.Raise Runtime.TypeError
  /\ (forall x, Runtime.getDateObject h (inl (Runtime.AString s))
                = Runtime.Raise x <->
        Runtime.isValidISODateString h (Runtime.AString s)
          = Runtime.Return false
        /\ Runtime.isValidFormattedString h (Runtime.AString s)
           = Runtime.Return false
        /\ x = Runtime.Thrown (InvalidDateError s)).
Proof.
  rewrite Runtime_getDateObject_string, Runtime_isValidISODateString_string,
    Runtime_isValidFormattedString_string.
  split; [reflexivity|]. split; [reflexivity|].
  cbn [getDateObject].
  destruct (isValidISODateString h s).
  - split; [discriminate|]. intros x.
    split; [discriminate | intros (C & _); discriminate C].
  - destruct (isValidFormattedString h s).
    + split; [discriminate|]. intros x.
      split; [discriminate | intros (_ & C & _); discriminate C].
    + split; [discriminate|]. intros x. split.
      * intros [= <-]. auto.
      * intros (_ & _ & ->). reflexivity.
Qed.

Lemma validators_never_throw_on_strings_witness :
  Runtime.isValidISODateString hostUTC (Runtime.AString "")
    = Runtime.Return false
  /\ Runtime.isValidFormattedString hostUTC (Runtime.AString "31-12-2020")
     = Runtime.Return false
  /\ Runtime.getDateObject hostUTC (inl (Runtime.AString "31-12-2020"))
     = Runtime.Raise (Runtime.Thrown (InvalidDateError "31-12-2020")).
Proof.
  split; [reflexivity|]. split; [reflexivity|].
  apply (proj2 (proj2 (proj2 (validators_never_throw_on_strings hostUTC
                                "31-12-2020")))).
  split; [reflexivity|]. split; reflexivity.
Defined.

(** ** The converters *)
Import Converters.

Lemma Math_abs_not_negative x : SFltb (Math_abs x) zero = false.
Proof. destruct x as [[]|[]| |[] m e]; reflexivity. Qed.

Lemma Math_abs_nonnegative x : x <> S754_nan -> SFleb zero (Math_abs x) = true.
Proof. destruct x as [[]|[]| |[] m e]; intros H; try reflexivity; congruence. Qed.

Section WithParser.
Context {parser : NumberParser}.

(** [convertToTransaction] returns exactly when all five conversions return,
    and then holds their values. *)
Lemma convertToTransaction_Ok h data t :
  convertToTransaction h data = Ok t <->
  exists date ty sh pr fe,
    getDateObject h (inl (RawTransaction.executionDate data)) = Ok date
    /\ convertRawType (RawTransaction.type data) = Ok ty
    /\ parseNumberWithAutoLocale (RawTransaction.shares data) = Ok sh
    /\ parseNumberWithAutoLocale (RawTransaction.price data) = Ok pr
    /\ parseNumberWithAutoLocale (RawTransaction.totalFees data) = Ok fe
    /\ t = Transaction.mk date ty (Math_abs sh) pr None (Math_abs fe).
Proof.
  destruct data as [executionDate type shares price totalFees].
  unfold convertToTransaction.
  cbn [RawTransaction.executionDate RawTransaction.type RawTransaction.shares
       RawTransaction.price RawTransaction.totalFees].
  split.
  - destruct (getDateObject h (inl executionDate)) as [date|]; [|discriminate].
    destruct (convertRawType type) as [ty|]; [|discriminate].
    destruct (parseNumberWithAutoLocale shares) as [sh|]; [|discriminate].
    destruct (parseNumberWithAutoLocale price) as [pr|]; [|discriminate].
    destruct (parseNumberWithAutoLocale totalFees) as [fe|]; [|discriminate].
    cbn [bind]. intros [= <-]. exists date, ty, sh, pr, fe. auto 7.
  - intros (date & ty & sh & pr & fe & -> & -> & -> & -> & -> & ->).
    reflexivity.
Qed.

(** C3: when the date, the type and the three numbers all convert,
    [convertToTransaction] returns a transaction whose shares are
    [Math.abs] of the parsed shares and whose fees are [Math.abs] of the
    parsed total fees, while its price is the parsed price itself; shares
    and fees are never below zero, and are at least zero unless the parser
    returned NaN. *)
Theorem convertToTransaction_magnitudes (h : Host) (data : RawTransaction.t)
    (date : Date) (ty : TransactionType) (sh pr fe : number) :
  getDateObject h (inl (RawTransaction.executionDate data)) = Ok date ->
  convertRawType (RawTransaction.type data) = Ok ty ->
  parseNumberWithAutoLocale (RawTransaction.shares data) = Ok sh ->
  parseNumberWithAutoLocale (RawTransaction.price data) = Ok pr ->
  parseNumberWithAutoLocale (RawTransaction.totalFees data) = Ok fe ->
  exists t, convertToTransaction h data = Ok t
    /\ Transaction.shares t = Math_abs sh
    /\ Transaction.fees t = Math_abs fe
    /\ Transaction.price t = pr
    /\ SFltb (Transaction.shares t) zero = false
    /\ SFltb (Transaction.fees t) zero = false
    /\ (sh <> S754_nan -> SFleb zero (Transaction.shares t) = true)
    /\ (fe <> S754_nan -> SFleb zero (Transaction.fees t) = true).
Proof.
  intros Hd Ht Hs Hp Hf.
  exists (Transaction.mk date ty (Math_abs sh) pr None (Math_abs fe)).
  split; [apply convertToTransaction_Ok; exists date, ty, sh, pr, fe; auto 7|].
  cbn [Transaction.shares Transaction.fees Transaction.price].
  repeat split;
    auto using Math_abs_not_negative, Math_abs_nonnegative.
Qed.

(** C7: when one of the five conversions throws, [convertToTransaction]
    throws as well and returns no transaction; the error is that of the
    first conversion, in the order date, type, shares, price, total fees,
    that throws. *)
Theorem convertToTransaction_propagates (h : Host) (data : RawTransaction.t) :
  isOk (getDateObject h (inl (RawTransaction.executionDate data)))
  && isOk (convertRawType (RawTransaction.type data))
  && isOk (parseNumberWithAutoLocale (RawTransaction.shares data))
  && isOk (parseNumberWithAutoLocale (RawTransaction.price data))
  && isOk (parseNumberWithAutoLocale (RawTransaction.totalFees data)) = false ->
  (forall t, convertToTransaction h data <> Ok t)
  /\ exists e, convertToTransaction h data = Throw e
     /\ (getDateObject h (inl (RawTransaction.executionDate data)) = Throw e
         \/ (isOk (getDateObject h (inl (RawTransaction.executionDate data)))
             = true
             /\ (convertRawType (RawTransaction.type data) = Throw e
                 \/ (isOk (convertRawType (RawTransaction.type data)) = true
                     /\ (parseNumberWithAutoLocale (RawTransaction.shares data)
                         = Throw e
                         \/ (isOk (parseNumberWithAutoLocale
                                     (RawTransaction.shares data)) = true
                             /\ (parseNumberWithAutoLocale
                                   (RawTransaction.price data) = Throw e
                                 \/ (isOk (parseNumberWithAutoLocale
                                             (RawTransaction.price data)) = true
                                     /\ parseNumberWithAutoLocale
                                          (RawTransaction.totalFees data)
                                        = Throw e)))))))).
Proof.
  destruct data as [executionDate type shares price totalFees].
  unfold convertToTransaction.
  cbn [RawTransaction.executionDate RawTransaction.type RawTransaction.shares
       RawTransaction.price RawTransaction.totalFees].
  destruct (getDateObject h (inl executionDate)) as [date|e1]; cbn [bind isOk andb];
    [|intros _; split; [discriminate | exists e1; auto]].
  destruct (convertRawType type) as [ty|e2]; cbn [bind isOk andb];
    [|intros _; split; [discriminate | exists e2; auto]].
  destruct (parseNumberWithAutoLocale shares) as [sh|e3]; cbn [bind isOk andb];
    [|intros _; split; [discriminate | exists e3; auto 7]].
  destruct (parseNumberWithAutoLocale price) as [pr|e4]; cbn [bind isOk andb];
    [|intros _; split; [discriminate | exists e4; auto 10]].
  destruct (parseNumberWithAutoLocale totalFees) as [fe|e5]; cbn [bind isOk andb];
    [discriminate | intros _; split; [discriminate | exists e5; auto 12]].
Qed.

(** C9: every transaction [convertToTransaction] returns has no exchange
    ([null]). *)
Theorem convertToTransaction_exchange (h : Host) (data : RawTransaction.t)
    (t : Transaction.t) :
  convertToTransaction h data = Ok t -> Transaction.exchange t = None.
Proof.
  intros H. apply convertToTransaction_Ok in H.
  destruct H as (date & ty & sh & pr & fe & _ & _ & _ & _ & _ & ->).
  reflexivity.
Qed.

(** [items.map(convertToQuoteItem)] *)
Lemma mapM_Forall2 {A B} (f : A -> result B) l :
  Forall (fun a => isOk (f a) = true) l ->
  exists l', mapM f l = Ok l' /\ Forall2 (fun a b => f a = Ok b) l l'.
Proof.
  induction 1 as [|a l Ha Hl (l' & E & F)]; cbn [mapM].
  - exists []. auto.
  - destruct (f a) as [b|] eqn:Fa; [|discriminate Ha].
    exists (b :: l'). rewrite E. cbn [bind]. auto.
Qed.

Lemma Forall2_nth_error {A B} (R : A -> B -> Prop) l l' :
  Forall2 R l l' ->
  List.length l' = List.length l
  /\ forall i a, nth_error l i = Some a ->
       exists b, nth_error l' i = Some b /\ R a b.
Proof.
  induction 1 as [|a b l l' Hab _ [IHl IHn]]; cbn [List.length].
  - split; [reflexivity|]. intros [|i] a; discriminate.
  - split; [now rewrite IHl|].
    intros [|i] x; cbn [nth_error].
    + intros [= <-]. eauto.
    + apply IHn.
Qed.

Lemma convertToQuoteItem_Ok raw it :
  convertToQuoteItem raw = Ok it ->
  QuoteItem.date it = RawQuoteItem.date raw
  /\ parseNumberWithAutoLocale (RawQuoteItem.price raw) = Ok (QuoteItem.price it).
Proof.
  destruct raw as [date price]. unfold convertToQuoteItem.
  cbn [RawQuoteItem.date RawQuoteItem.price].
  destruct (parseNumberWithAutoLocale price) as [p|]; [|discriminate].
  cbn [bind]. intros [= <-]. auto.
Qed.

Lemma convertToQuoteItem_isOk raw :
  isOk (convertToQuoteItem raw)
  = isOk (parseNumberWithAutoLocale (RawQuoteItem.price raw)).
Proof.
  destruct raw as [date price]. unfold convertToQuoteItem.
  cbn [RawQuoteItem.price].
  now destruct (parseNumberWithAutoLocale price).
Qed.

(** C5: when the price of every item parses, [convertToQuoteData] returns
    quote data with the name, the identifier and the exchange of the input
    and as many items as the input; the item at each position has the date
    text of the input item at that position, unchanged, and the parsed price
    of that item. *)
Theorem convertToQuoteData_elementwise (data : RawQuoteData.t) :
  Forall (fun raw =>
            isOk (parseNumberWithAutoLocale (RawQuoteItem.price raw)) = true)
         (RawQuoteData.items data) ->
  exists q, convertToQuoteData data = Ok q
    /\ QuoteData.name q = RawQuoteData.name data
    /\ QuoteData.nsin q = RawQuoteData.nsin data
    /\ QuoteData.exchange q = RawQuoteData.exchange data
    /\ List.length (QuoteData.items q)
       = List.length (RawQuoteData.items data)
    /\ forall i raw, nth_error (RawQuoteData.items data) i = Some raw ->
         exists it, nth_error (QuoteData.items q) i = Some it
           /\ QuoteItem.date it = RawQuoteItem.date raw
           /\ parseNumberWithAutoLocale (RawQuoteItem.price raw)
              = Ok (QuoteItem.price it).
Proof.
  destruct data as [name nsin exchange items].
  cbn [RawQuoteData.items RawQuoteData.name RawQuoteData.nsin
       RawQuoteData.exchange].
  intros H.
  destruct (mapM_Forall2 convertToQuoteItem items) as (items' & E & F).
  { eapply Forall_impl; [|exact H]. intros raw.
    now rewrite convertToQuoteItem_isOk. }
  exists (QuoteData.mk name nsin exchange items').
  unfold convertToQuoteData. rewrite E. cbn [bind].
  destruct (Forall2_nth_error _ _ _ F) as [L N].
  repeat (split; [reflexivity|]). split; [exact L|].
  intros i raw Hi. destruct (N i raw Hi) as (it & Hit & C).
  exists it. split; [exact Hit|]. now apply convertToQuoteItem_Ok.
Qed.

End WithParser.

(** C4: [convertRawType] maps "Kauf" to BUY and "Verkauf" to SELL, returns
    BUY for no other text and SELL for no other text, and on every other
    text, case variants and padded variants among them, throws the error
    that carries the text. *)
Theorem convertRawType_exact (rawType : string) :
  convertRawType "Kauf" = Ok BUY
  /\ convertRawType "Verkauf" = Ok SELL
  /\ (convertRawType rawType = Ok BUY <-> rawType = "Kauf"%string)
  /\ (convertRawType rawType = Ok SELL <-> rawType = "Verkauf"%string)
  /\ (rawType <> "Kauf"%string -> rawType <> "Verkauf"%string ->
      convertRawType rawType = Throw (UnknownTransactionTypeError rawType))
  /\ Forall (fun v => convertRawType v = Throw (UnknownTransactionTypeError v))
       ["kauf"; "KAUF"; " Kauf"; "Kauf "; "verkauf"; "VERKAUF"; "Verkauf ";
        "Buy"; ""]%string.
Proof.
  split; [reflexivity|]. split; [reflexivity|].
  unfold convertRawType.
  destruct (String.eqb_spec rawType "Kauf") as [-> | N1].
  - split; [tauto|]. split; [split; discriminate|].
    split; [contradiction|]. repeat constructor.
  - destruct (String.eqb_spec rawType "Verkauf") as [-> | N2].
    + split; [split; discriminate|]. split; [tauto|].
      split; [contradiction|]. repeat constructor.
    + split; [split; [discriminate | contradiction]|].
      split; [split; [discriminate | contradiction]|].
      split; [reflexivity|]. repeat constructor.
Qed.

(** *** The converters on the sample records *)

Lemma convertToTransaction_magnitudes_witness :
  @parseNumberWithAutoLocale Sample.integerParser "-5"
    = Ok (S754_finite true 5 0)
  /\ @parseNumberWithAutoLocale Sample.integerParser "-2"
    = Ok (S754_finite true 2 0)
  /\ exists t,
       @convertToTransaction Sample.integerParser hostUTC Sample.rawSell = Ok t
       /\ Transaction.shares t = S754_finite false 5 0
       /\ Transaction.fees t = S754_finite false 2 0
       /\ Transaction.price t = S754_finite false 100 0
       /\ SFltb (Transaction.shares t) zero = false
       /\ SFltb (Transaction.fees t) zero = false
       /\ (S754_finite true 5 0 <> S754_nan ->
           SFleb zero (Transaction.shares t) = true)
       /\ (S754_finite true 2 0 <> S754_nan ->
           SFleb zero (Transaction.fees t) = true).
Proof.
  split; [reflexivity|]. split; [reflexivity|].
  exact (@convertToTransaction_magnitudes Sample.integerParser hostUTC
           Sample.rawSell (Some 1672617600000) SELL
           (S754_finite true 5 0) (S754_finite false 100 0)
           (S754_finite true 2 0) eq_refl eq_refl eq_refl eq_refl eq_refl).
Defined.

Lemma convertToTransaction_propagates_witness :
  (forall t, @convertToTransaction Sample.integerParser hostUTC
               Sample.rawImpossibleDate <> Ok t)
  /\ (forall t, @convertToTransaction Sample.integerParser hostUTC
                  Sample.rawUnknownType <> Ok t)
  /\ (forall t, @convertToTransaction Sample.integerParser hostUTC
                  Sample.rawBadFees <> Ok t).
Proof.
  split; [|split].
  - exact (proj1 (@convertToTransaction_propagates Sample.integerParser
                    hostUTC Sample.rawImpossibleDate eq_refl)).
  - exact (proj1 (@convertToTransaction_propagates Sample.integerParser
                    hostUTC Sample.rawUnknownType eq_refl)).
  - exact (proj1 (@convertToTransaction_propagates Sample.integerParser
                    hostUTC Sample.rawBadFees eq_refl)).
Defined.

Lemma convertToTransaction_exchange_witness :
  @convertToTransaction Sample.integerParser hostUTC Sample.rawBuy
    = Ok (Transaction.mk (Some 1672617600000) BUY (S754_finite false 10 0)
            (S754_finite false 100 0) None (S754_finite false 2 0))
  /\ Transaction.exchange
       (Transaction.mk (Some 1672617600000) BUY (S754_finite false 10 0)
          (S754_finite false 100 0) None (S754_finite false 2 0)) = None.
Proof.
  assert (E : @convertToTransaction Sample.integerParser hostUTC Sample.rawBuy
              = Ok (Transaction.mk (Some 1672617600000) BUY
                      (S754_finite false 10 0) (S754_finite false 100 0) None
                      (S754_finite false 2 0)))
    by (vm_compute; reflexivity).
  split; [exact E|].
  exact (@convertToTransaction_exchange Sample.integerParser hostUTC
           Sample.rawBuy _ E).
Defined.

Lemma convertToQuoteData_elementwise_witness :
  exists q, @convertToQuoteData Sample.integerParser Sample.rawQuotes = Ok q
    /\ QuoteData.name q = "ACME"%string
    /\ QuoteData.nsin q = "123456"%string
    /\ QuoteData.exchange q = "XETRA"%string
    /\ List.length (QuoteData.items q) = 3%nat
    /\ forall i raw,
         nth_error (RawQuoteData.items Sample.rawQuotes) i = Some raw ->
         exists it, nth_error (QuoteData.items q) i = Some it
           /\ QuoteItem.date it = RawQuoteItem.date raw
           /\ @parseNumberWithAutoLocale Sample.integerParser
                (RawQuoteItem.price raw) = Ok (QuoteItem.price it).
Proof.
  apply (@convertToQuoteData_elementwise Sample.integerParser Sample.rawQuotes).
  repeat constructor.
Defined.

Lemma convertRawType_exact_witness :
  "Verkauf "%string <> "Kauf"%string
  /\ "Verkauf "%string <> "Verkauf"%string
  /\ convertRawType "Verkauf "
     = Throw (UnknownTransactionTypeError "Verkauf ").
Proof.
  assert (N1 : "Verkauf "%string <> "Kauf"%string) by discriminate.
  assert (N2 : "Verkauf "%string <> "Verkauf"%string) by discriminate.
  split; [exact N1|]. split; [exact N2|].
  exact (proj1 (proj2 (proj2 (proj2 (proj2
           (convertRawType_exact "Verkauf "))))) N1 N2).
Defined.

(** * Further properties of the date utilities *)
Import Shapes.

(** ** Helper facts *)

Lemma legacyYear_iff y : legacyYear y = true <-> 0 <= y <= 99.
Proof. unfold legacyYear. rewrite andb_true_iff, !Z.leb_le. tauto. Qed.

Lemma legacyYear_false y : legacyYear y = false <-> ~ 0 <= y <= 99.
Proof.
  rewrite <- legacyYear_iff. destruct (legacyYear y); split; congruence.
Qed.

Lemma eastward_bounded h : eastwardZone h -> boundedZone h.
Proof. intros H t. specialize (H t). unfold msPerDay in *. lia. Qed.

Lemma westward_bounded h :
  (forall t, - msPerDay < LocalTZA h t < 0) -> boundedZone h.
Proof. intros H t. specialize (H t). unfold msPerDay in *. lia. Qed.

(** The time value of a real date of the years -270000..270000 is within
    the range of [TimeClip]. *)
Lemma TimeClip_utcMidnight_wide y m d :
  -270000 <= y <= 270000 -> realDate y m d = true ->
  TimeClip (utcMidnight y m d) = Some (utcMidnight y m d).
Proof.
  intros Hy R. pose proof (MakeDay_bounds y m d R) as B.
  pose proof (DayFromYear_mono (-270000) y ltac:(lia)) as L.
  pose proof (DayFromYear_mono (y + 1) 270001 ltac:(lia)) as U.
  change (DayFromYear (-270000)) with (-99335003) in L.
  change (DayFromYear 270001) with 97896313 in U.
  unfold TimeClip, utcMidnight, MakeDate, msPerDay.
  destruct (Z.ltb_spec 8640000000000000
              (Z.abs (MakeDay y (m - 1) d * 86400000 + 0))); [lia | reflexivity].
Qed.

Lemma createDateFromComps_utcMidnight y m d :
  legacyYear y = false ->
  createDateFromComps (Some y) (Some m) (Some d) = TimeClip (utcMidnight y m d).
Proof.
  intros L. unfold createDateFromComps. cbn [sub1 option_map newDateUTC].
  apply Date_UTC_utcMidnight. now apply legacyYear_false.
Qed.

Lemma valid_components_east_wide h y m d :
  eastwardZone h -> -270000 <= y <= 270000 -> legacyYear y = false ->
  realDate y m d = true ->
  isValidDateComponents h (Some y) (Some m) (Some d) = true.
Proof.
  intros Hz Hy L R.
  unfold isValidDateComponents.
  rewrite createDateFromComps_utcMidnight, TimeClip_utcMidnight_wide
    by assumption.
  cbn [sub1 getFullYear getMonth getDate option_map strictEq].
  unfold LocalTime, utcMidnight.
  replace (MakeDate (MakeDay y (m - 1) d) 0
           + LocalTZA h (MakeDate (MakeDay y (m - 1) d) 0))
    with (MakeDate (MakeDay y (m - 1) d)
            (LocalTZA h (MakeDate (MakeDay y (m - 1) d) 0)))
    by (unfold MakeDate; ring).
  destruct (components_MakeDay y m d
              (LocalTZA h (MakeDate (MakeDay y (m - 1) d) 0)) R (Hz _))
    as (-> & -> & ->).
  now rewrite !Z.eqb_refl.
Qed.

Lemma valid_components_east_eq h y m d :
  eastwardZone h -> -270000 <= y <= 270000 ->
  isValidDateComponents h (Some y) (Some m) (Some d)
  = realDate y m d && negb (legacyYear y).
Proof.
  intros Hz Hy.
  destruct (isValidDateComponents h (Some y) (Some m) (Some d)) eqn:V.
  - rewrite (valid_components_real h y m d V).
    pose proof (valid_components_year h y m d (eastward_bounded h Hz) V) as Y.
    apply legacyYear_false in Y. now rewrite Y.
  - destruct (realDate y m d) eqn:R; [|reflexivity].
    destruct (legacyYear y) eqn:L; [reflexivity|].
    now rewrite valid_components_east_wide in V.
Qed.

Lemma test_length re s :
  test re s = true -> String.length s = List.length re.
Proof.
  revert s. induction re as [|a re IH]; intros [|c s]; cbn [test];
    try discriminate; [reflexivity | |].
  - destruct a; discriminate.
  - destruct a; intros H; apply andb_true_iff in H as [_ H];
      cbn [String.length List.length]; now rewrite (IH s H).
Qed.

Lemma getDateObject_no_pattern h s :
  test isoRegex s = false -> test (shortRegex ".") s = false ->
  test (shortRegex "/") s = false ->
  getDateObject h (inl s) = Throw (InvalidDateError s).
Proof.
  intros T1 T2 T3. cbn [getDateObject].
  unfold isValidISODateString, isValidFormattedString.
  now rewrite T1, T2, T3.
Qed.

(** What an accepted text is, where offsets stay within a day of UTC. *)
Lemma getDateObject_Ok_inv h s date :
  boundedZone h -> getDateObject h (inl s) = Ok date ->
  exists y m d, inWidth y m d /\ realDate y m d = true
    /\ legacyYear y = false
    /\ (s = isoText y m d \/ s = shortText "." y m d
        \/ s = shortText "/" y m d)
    /\ date = Some (utcMidnight y m d).
Proof.
  intros Hz H.
  assert (T : test isoRegex s || test (shortRegex ".") s
              || test (shortRegex "/") s = true).
  { destruct (test isoRegex s) eqn:T1; [reflexivity|].
    destruct (test (shortRegex ".") s) eqn:T2; [reflexivity|].
    destruct (test (shortRegex "/") s) eqn:T3; [reflexivity|].
    rewrite getDateObject_no_pattern in H by assumption. discriminate. }
  destruct (dialect_text_inv s T) as (y & m & d & W & E).
  rewrite (getDateObject_dialect h s y m d W E) in H.
  destruct (isValidDateComponents h (Some y) (Some m) (Some d)) eqn:V;
    [|discriminate].
  pose proof (valid_components_real h y m d V) as R.
  pose proof (valid_components_year h y m d Hz V) as Y.
  apply legacyYear_false in Y.
  assert (D : (if test isoRegex s then Some (utcMidnight y m d)
               else createDateFromComps (Some y) (Some m) (Some d))
              = Some (utcMidnight y m d)).
  { destruct (test isoRegex s); [reflexivity|].
    rewrite createDateFromComps_utcMidnight by exact Y.
    apply TimeClip_utcMidnight; [apply W | exact R]. }
  rewrite D in H.
  exists y, m, d. repeat (split; [assumption|]). congruence.
Qed.

Lemma isValidDateComponents_sameZone h h' year month day :
  sameZone h h' ->
  isValidDateComponents h year month day
  = isValidDateComponents h' year month day.
Proof.
  intros Z. unfold isValidDateComponents.
  destruct (createDateFromComps year month day) as [t|]; [|reflexivity].
  cbn [getFullYear getMonth getDate option_map]. unfold LocalTime.
  now rewrite (Z t).
Qed.

(** ** The round-trip check *)

(** X1: on every host, [isValidDateComponents] returns [true] only for three
    numbers (none of them NaN or missing) that are a real calendar date. *)
Theorem isValidDateComponents_only_real_dates (h : Host)
    (year month day : jsnum) :
  isValidDateComponents h year month day = true ->
  exists y m d, year = Some y /\ month = Some m /\ day = Some d
    /\ realDate y m d = true.
Proof.
  intros V.
  destruct year as [y|];
    [|rewrite valid_components_NaN in V by auto; discriminate].
  destruct month as [m|];
    [|rewrite valid_components_NaN in V by auto; discriminate].
  destruct day as [d|];
    [|rewrite valid_components_NaN in V by auto; discriminate].
  exists y, m, d. repeat (split; [reflexivity|]).
  exact (valid_components_real h y m d V).
Qed.

Lemma isValidDateComponents_only_real_dates_witness :
  isValidDateComponents hostBerlin (Some 2024) (Some 2) (Some 29) = true
  /\ exists y m d, Some 2024 = Some y /\ Some 2 = Some m /\ Some 29 = Some d
       /\ realDate y m d = true.
Proof.
  assert (V : isValidDateComponents hostBerlin (Some 2024) (Some 2) (Some 29)
              = true) by (vm_compute; reflexivity).
  split; [exact V|].
  exact (isValidDateComponents_only_real_dates hostBerlin _ _ _ V).
Defined.

(** X2: east of Greenwich and at UTC, for the years -270000..270000,
    [isValidDateComponents] accepts exactly the real calendar dates whose
    year is not one of 0..99. *)
Theorem isValidDateComponents_east (h : Host) (y m d : Z) :
  eastwardZone h -> -270000 <= y <= 270000 ->
  isValidDateComponents h (Some y) (Some m) (Some d)
  = realDate y m d && negb (legacyYear y).
Proof.
  intros Hz Hy.
  destruct (isValidDateComponents h (Some y) (Some m) (Some d)) eqn:V.
  - rewrite (valid_components_real h y m d V).
    destruct (legacyYear y) eqn:L; [exfalso | reflexivity].
    apply legacyYear_iff in L.
    exact (valid_components_year h y m d (eastward_bounded h Hz) V L).
  - destruct (realDate y m d) eqn:R; [|reflexivity].
    destruct (legacyYear y) eqn:L; [reflexivity|].
    rewrite (valid_components_east_wide h y m d Hz Hy L R) in V.
    discriminate V.
Qed.

Lemma hostBerlin_eastward : eastwardZone hostBerlin.
Proof. intros t. cbn. unfold msPerDay. lia. Qed.

Lemma hostUTC_eastward : eastwardZone hostUTC.
Proof. intros t. cbn. unfold msPerDay. lia. Qed.

Lemma hostNewYork_westward : westwardZone hostNewYork.
Proof. intros t. cbn. unfold msPerDay. lia. Qed.

Lemma isValidDateComponents_east_witness :
  eastwardZone hostBerlin
  /\ isValidDateComponents hostBerlin (Some 1900) (Some 2) (Some 29)
     = realDate 1900 2 29 && negb (legacyYear 1900)
  /\ isValidDateComponents hostBerlin (Some 99) (Some 12) (Some 31)
     = realDate 99 12 31 && negb (legacyYear 99).
Proof.
  split; [exact hostBerlin_eastward|]. split.
  - apply (isValidDateComponents_east hostBerlin 1900 2 29 hostBerlin_eastward).
    lia.
  - apply (isValidDateComponents_east hostBerlin 99 12 31 hostBerlin_eastward).
    lia.
Defined.

(** X3: on a host west of Greenwich (local time behind UTC by up to a day)
    [isValidDateComponents] returns [false] on all arguments, both
    validators return [false] on every text, and [getDateObject] throws on
    every text. *)
Theorem west_of_Greenwich_rejects_all (h : Host) :
  westwardZone h ->
  (forall year month day, isValidDateComponents h year month day = false)
  /\ (forall s, isValidISODateString h s = false
                /\ isValidFormattedString h s = false
                /\ getDateObject h (inl s) = Throw (InvalidDateError s)).
Proof.
  intros Hz. split; [intros; now apply valid_components_west|].
  intros s.
  assert (I : isValidISODateString h s = false).
  { destruct (isValidISODateString h s) eqn:I; [|reflexivity].
    destruct (isValidISODateString_inv h s I) as (y & m & d & W & ->).
    rewrite isValidISODateString_isoText in I by exact W.
    now rewrite valid_components_west in I. }
  assert (F : isValidFormattedString h s = false).
  { destruct (isValidFormattedString h s) eqn:F; [|reflexivity].
    destruct (isValidFormattedString_inv h s F)
      as (sep & y & m & d & S & W & ->).
    rewrite isValidFormattedString_shortText in F by assumption.
    now rewrite valid_components_west in F. }
  repeat split; try assumption.
  cbn [getDateObject]. now rewrite I, F.
Qed.

Lemma west_of_Greenwich_rejects_all_witness :
  westwardZone hostNewYork
  /\ isValidDateComponents hostNewYork (Some 2023) (Some 1) (Some 2) = false
  /\ getDateObject hostNewYork (inl "2023-01-02"%string)
     = Throw (InvalidDateError "2023-01-02").
Proof.
  split; [exact hostNewYork_westward|]. split.
  - exact (proj1 (west_of_Greenwich_rejects_all hostNewYork
                    hostNewYork_westward) _ _ _).
  - exact (proj2 (proj2 (proj2 (west_of_Greenwich_rejects_all hostNewYork
                                  hostNewYork_westward) "2023-01-02"%string))).
Defined.

(** ** What [getDateObject] returns *)

(** X4: where offsets stay within a day of UTC, every date [getDateObject]
    returns for a text is UTC midnight of the real calendar day the text
    names, in a year 100..9999: its time within the day is 0 and its UTC
    year, month and day of month are those of the text. *)
Theorem getDateObject_returns_utc_midnight (h : Host) (s : string)
    (date : Date) :
  boundedZone h -> getDateObject h (inl s) = Ok date ->
  exists y m d,
    100 <= y <= 9999 /\ realDate y m d = true
    /\ (s = isoText y m d \/ s = shortText "." y m d
        \/ s = shortText "/" y m d)
    /\ date = Some (utcMidnight y m d)
    /\ TimeWithinDay (utcMidnight y m d) = 0
    /\ getUTCFullYear date = Some y /\ getUTCMonth date = Some (m - 1)
    /\ getUTCDate date = Some d.
Proof.
  intros Hz H.
  destruct (getDateObject_Ok_inv h s date Hz H)
    as (y & m & d & W & R & L & E & ->).
  apply legacyYear_false in L.
  exists y, m, d. split; [destruct W; lia|]. split; [exact R|].
  split; [exact E|]. split; [reflexivity|]. split.
  - unfold TimeWithinDay, utcMidnight, MakeDate.
    rewrite Z.add_0_r. apply Z.mod_mul. unfold msPerDay. lia.
  - cbn [getUTCFullYear getUTCMonth getUTCDate option_map]. unfold utcMidnight.
    destruct (components_MakeDay y m d 0 R ltac:(unfold msPerDay; lia))
      as (-> & -> & ->).
    auto.
Qed.

Lemma getDateObject_returns_utc_midnight_witness :
  boundedZone hostBerlin
  /\ getDateObject hostBerlin (inl "29.02.2024"%string)
     = Ok (Some 1709164800000)
  /\ exists y m d,
       100 <= y <= 9999 /\ realDate y m d = true
       /\ ("29.02.2024"%string = isoText y m d
           \/ "29.02.2024"%string = shortText "." y m d
           \/ "29.02.2024"%string = shortText "/" y m d)
       /\ Some 1709164800000 = Some (utcMidnight y m d)
       /\ TimeWithinDay (utcMidnight y m d) = 0
       /\ getUTCFullYear (Some 1709164800000) = Some y
       /\ getUTCMonth (Some 1709164800000) = Some (m - 1)
       /\ getUTCDate (Some 1709164800000) = Some d.
Proof.
  assert (B : boundedZone hostBerlin)
    by exact (eastward_bounded _ hostBerlin_eastward).
  assert (E : getDateObject hostBerlin (inl "29.02.2024"%string)
              = Ok (Some 1709164800000)) by (vm_compute; reflexivity).
  split; [exact B|]. split; [exact E|].
  exact (getDateObject_returns_utc_midnight hostBerlin _ _ B E).
Defined.

(** X5: where offsets stay within a day of UTC, [getDateObject] throws on
    every text of a year 0000..0099, in each of the three dialects, real
    calendar date or not. *)
Theorem getDateObject_rejects_years_0_to_99 (h : Host) (y m d : Z) :
  boundedZone h -> inWidth y m d -> 0 <= y <= 99 ->
  getDateObject h (inl (isoText y m d))
    = Throw (InvalidDateError (isoText y m d))
  /\ getDateObject h (inl (shortText "." y m d))
     = Throw (InvalidDateError (shortText "." y m d))
  /\ getDateObject h (inl (shortText "/" y m d))
     = Throw (InvalidDateError (shortText "/" y m d)).
Proof.
  intros Hz W Hy.
  split; [|split]; apply (getDateObject_first_century h _ y m d Hz W Hy); auto.
Qed.

Lemma getDateObject_rejects_years_0_to_99_witness :
  boundedZone hostUTC /\ inWidth 99 12 31 /\ 0 <= 99 <= 99
  /\ getDateObject hostUTC (inl "0099-12-31"%string)
     = Throw (InvalidDateError "0099-12-31").
Proof.
  assert (B : boundedZone hostUTC) by exact (eastward_bounded _ hostUTC_eastward).
  assert (W : inWidth 99 12 31) by (apply fits_inWidth; reflexivity).
  assert (Y : 0 <= 99 <= 99) by lia.
  split; [exact B|]. split; [exact W|]. split; [exact Y|].
  exact (proj1 (getDateObject_rejects_years_0_to_99 hostUTC 99 12 31 B W Y)).
Defined.

(** X6: no text passes both validators, on any host, so the order of the
    two branches of [getDateObject] decides nothing. *)
Theorem validators_never_both (h : Host) (s : string) :
  isValidISODateString h s && isValidFormattedString h s = false.
Proof.
  destruct (isValidISODateString h s) eqn:I; [|reflexivity].
  destruct (isValidISODateString_inv h s I) as (y & m & d & W & ->).
  now rewrite isValidFormattedString_isoText.
Qed.

(** X7: on every text and every host the ISO validator is the pattern test
    followed by the round-trip check on the three numbers of the text; the
    check of the constructed date for NaN (step C) never changes the
    result. *)
Theorem isValidISODateString_is_round_trip (h : Host) (s : string) :
  isValidISODateString h s
  = test isoRegex s
    && isValidDateComponents h
         (item (map Number (split isHyphen s)) 0)
         (item (map Number (split isHyphen s)) 1)
         (item (map Number (split isHyphen s)) 2).
Proof.
  destruct (test isoRegex s) eqn:T.
  - destruct (test_isoRegex_inv s T) as (y & m & d & W & ->).
    rewrite isValidISODateString_isoText, split_isoText by exact W.
    reflexivity.
  - unfold isValidISODateString. now rewrite T.
Qed.

(** X8: two hosts in the same time zone give the same results, whether
    their [Date] constructor rejects a day outside the month or rolls it
    over: both validators and [getDateObject] agree on every input. *)
Theorem same_zone_same_results (h h' : Host) (x : string + Date) :
  sameZone h h' ->
  getDateObject h x = getDateObject h' x
  /\ (forall s, isValidISODateString h s = isValidISODateString h' s
                /\ isValidFormattedString h s = isValidFormattedString h' s).
Proof.
  intros Z.
  assert (V : forall s,
             isValidISODateString h s = isValidISODateString h' s
             /\ isValidFormattedString h s = isValidFormattedString h' s).
  { intros s. split.
    - destruct (test isoRegex s) eqn:T.
      + destruct (test_isoRegex_inv s T) as (y & m & d & W & ->).
        rewrite !isValidISODateString_isoText by exact W.
        now apply isValidDateComponents_sameZone.
      + unfold isValidISODateString. now rewrite T.
    - unfold isValidFormattedString.
      now rewrite (isValidDateComponents_sameZone h h'). }
  split; [|exact V].
  destruct x as [s|date]; [|reflexivity].
  cbn [getDateObject]. destruct (V s) as [<- <-].
  destruct (isValidISODateString h s) eqn:I; [|reflexivity].
  destruct (isValidISODateString_inv h s I) as (y & m & d & W & ->).
  rewrite isValidISODateString_isoText in I by exact W.
  pose proof (valid_components_real h y m d I) as R.
  now rewrite !newDateFromString_real.
Qed.

Lemma hostBerlin_sameZone : sameZone hostBerlin hostBerlinStrict.
Proof. intros t. reflexivity. Qed.

Lemma same_zone_same_results_witness :
  sameZone hostBerlin hostBerlinStrict
  /\ newDateFromString hostBerlin "2025-06-31" = Some 1751328000000
  /\ newDateFromString hostBerlinStrict "2025-06-31" = None
  /\ getDateObject hostBerlin (inl "2025-06-31"%string)
     = getDateObject hostBerlinStrict (inl "2025-06-31"%string).
Proof.
  split; [exact hostBerlin_sameZone|].
  split; [vm_compute; reflexivity|]. split; [vm_compute; reflexivity|].
  exact (proj1 (same_zone_same_results hostBerlin hostBerlinStrict
                  (inl "2025-06-31"%string) hostBerlin_sameZone)).
Defined.

(** ** Texts of other shapes *)

(** X9: on every host [getDateObject] throws on every text that is not
    exactly ten characters long, the empty text among them. *)
Theorem getDateObject_rejects_wrong_length (h : Host) (s : string) :
  String.length s <> 10%nat ->
  getDateObject h (inl s) = Throw (InvalidDateError s).
Proof.
  intros L. apply getDateObject_no_pattern.
  - destruct (test isoRegex s) eqn:T; [|reflexivity].
    apply test_length in T. contradiction.
  - destruct (test (shortRegex ".") s) eqn:T; [|reflexivity].
    apply test_length in T. contradiction.
  - destruct (test (shortRegex "/") s) eqn:T; [|reflexivity].
    apply test_length in T. contradiction.
Qed.

Lemma getDateObject_rejects_wrong_length_witness :
  getDateObject hostUTC (inl ""%string) = Throw (InvalidDateError "")
  /\ getDateObject hostUTC (inl "1.2.2020"%string)
     = Throw (InvalidDateError "1.2.2020")
  /\ getDateObject hostUTC (inl "2020-12-31T00:00:00Z"%string)
     = Throw (InvalidDateError "2020-12-31T00:00:00Z").
Proof.
  split; [|split]; apply getDateObject_rejects_wrong_length; discriminate.
Defined.

Lemma test_shortRegex_mixedText c sep1 sep2 y m d :
  inWidth y m d ->
  test (shortRegex c) (mixedText sep1 sep2 y m d)
  = Ascii.eqb c sep1 && Ascii.eqb c sep2.
Proof.
  intros (Hy & Hm & Hd).
  destruct (pad4_digits y Hy) as (H1 & H2 & H3 & H4).
  destruct (pad2_digits m Hm) as (H5 & H6).
  destruct (pad2_digits d Hd) as (H7 & H8).
  cbn [test shortRegex mixedText pad2 pad4 append].
  rewrite !isDigit_digitChar by assumption.
  cbn [andb]. now rewrite andb_true_r.
Qed.

Lemma test_isoRegex_mixedText sep1 sep2 y m d :
  isDigit sep1 = false -> inWidth y m d ->
  test isoRegex (mixedText sep1 sep2 y m d) = false.
Proof.
  intros Hsep (Hy & Hm & Hd).
  destruct (pad2_digits d Hd) as (H7 & H8).
  cbn [test isoRegex mixedText pad2 pad4 append].
  rewrite !isDigit_digitChar by assumption.
  rewrite Hsep. reflexivity.
Qed.

(** X10: a day, a month and a year written in the widths of the
    locale-short dialects are rejected by [getDateObject], on every host and
    whatever the date, unless both separators are dots or both are slashes:
    hyphens, backslashes and mixed separators all throw. *)
Theorem getDateObject_rejects_other_separators (h : Host)
    (sep1 sep2 : ascii) (y m d : Z) :
  inWidth y m d -> isDigit sep1 = false ->
  ~ (sep1 = sep2 /\ (sep1 = "."%char \/ sep1 = "/"%char)) ->
  getDateObject h (inl (mixedText sep1 sep2 y m d))
  = Throw (InvalidDateError (mixedText sep1 sep2 y m d)).
Proof.
  intros W D N. apply getDateObject_no_pattern.
  - now apply test_isoRegex_mixedText.
  - rewrite test_shortRegex_mixedText by exact W.
    destruct (Ascii.eqb_spec "." sep1) as [<- | ]; [|reflexivity].
    destruct (Ascii.eqb_spec "." sep2) as [<- | ]; [|reflexivity].
    exfalso. apply N. auto.
  - rewrite test_shortRegex_mixedText by exact W.
    destruct (Ascii.eqb_spec "/" sep1) as [<- | ]; [|reflexivity].
    destruct (Ascii.eqb_spec "/" sep2) as [<- | ]; [|reflexivity].
    exfalso. apply N. auto.
Qed.

Lemma getDateObject_rejects_other_separators_witness :
  getDateObject hostUTC (inl "31.12/2020"%string)
    = Throw (InvalidDateError "31.12/2020")
  /\ getDateObject hostUTC (inl "31-12-2020"%string)
     = Throw (InvalidDateError "31-12-2020")
  /\ getDateObject hostUTC (inl "31\12\2020"%string)
     = Throw (InvalidDateError "31\12\2020").
Proof.
  assert (W : inWidth 2020 12 31) by (apply fits_inWidth; reflexivity).
  split; [|split].
  - apply (getDateObject_rejects_other_separators hostUTC "." "/" 2020 12 31 W);
      [reflexivity | intros [E _]; discriminate E].
  - apply (getDateObject_rejects_other_separators hostUTC "-" "-" 2020 12 31 W);
      [reflexivity | intros [_ [E | E]]; discriminate E].
  - apply (getDateObject_rejects_other_separators hostUTC "\" "\" 2020 12 31 W);
      [reflexivity | intros [_ [E | E]]; discriminate E].
Defined.

(** X11: [getCompsFromFormatted] reads the day, the month and the year back
    from a text in the locale-short widths whenever each separator is a
    dot, a slash or a backslash, mixed separators included (more than
    [isValidFormattedString] accepts). *)
Theorem getCompsFromFormatted_reads_components (sep1 sep2 : ascii)
    (y m d : Z) :
  inWidth y m d ->
  isShortSeparator sep1 = true -> isShortSeparator sep2 = true ->
  getCompsFromFormatted (mixedText sep1 sep2 y m d)
  = [Some d; Some m; Some y].
Proof.
  intros (Hy & Hm & Hd) S1 S2. unfold getCompsFromFormatted, mixedText.
  rewrite !(split_digits_sep _ isShortSeparator_no_digit),
    (split_digits _ isShortSeparator_no_digit)
    by (auto using allDigits_pad2, allDigits_pad4).
  cbn [map]. now rewrite Number_pad4, !Number_pad2.
Qed.

Lemma getCompsFromFormatted_reads_components_witness :
  getCompsFromFormatted "31\12/2020" = [Some 31; Some 12; Some 2020].
Proof.
  apply (getCompsFromFormatted_reads_components "\" "/" 2020 12 31);
    [apply fits_inWidth |  | ]; reflexivity.
Defined.

(** ** Dates outside the month *)

Lemma MakeDay_next_month y m :
  1 <= m <= 12 -> MakeDay y (m - 1) (daysInMonth y m + 1) = MakeDay y m 1.
Proof.
  intros Hm.
  destruct (Z.eq_dec m 12) as [-> | N].
  - rewrite MakeDay_in_year by lia. unfold MakeDay.
    change (12 / 12) with 1. change (12 mod 12) with 0.
    rewrite DayFromYear_succ. unfold DaysInYear, daysInMonth.
    cbn [monthStart]. change (12 - 1) with 11. cbn [monthStart].
    destruct (isLeapYear y); destruct (isLeapYear (y + 1)); lia.
  - rewrite !MakeDay_in_year by lia. unfold daysInMonth.
    month_cases m C; subst m; try lia;
      destruct (isLeapYear y); cbv beta iota; eval_monthStart; lia.
Qed.

Lemma MakeDay_month_12 y d : MakeDay y 12 d = MakeDay (y + 1) 0 d.
Proof.
  unfold MakeDay.
  change (12 / 12) with 1. change (12 mod 12) with 0.
  change (0 / 12) with 0. change (0 mod 12) with 0.
  replace (y + 1 + 0) with (y + 1) by lia. reflexivity.
Qed.

(** X12: [createDateFromComps] does not reject a day outside the month: for
    a year -270000..269999 outside 0..99 and a month 1..12, the day after
    the last day of the month gives a valid date, UTC midnight of the first
    day of the next month (of January of the next year after December),
    with that year, that month and day 1 as its UTC components; and on
    every host [isValidDateComponents] returns [false] for the day that was
    asked for. *)
Theorem createDateFromComps_rolls_over (y m : Z) :
  -270000 <= y < 270000 -> ~ 0 <= y <= 99 -> 1 <= m <= 12 ->
  let y' := if m =? 12 then y + 1 else y in
  let m' := if m =? 12 then 1 else m + 1 in
  let date :=
    createDateFromComps (Some y) (Some m) (Some (daysInMonth y m + 1)) in
  date = Some (utcMidnight y' m' 1)
  /\ getUTCFullYear date = Some y'
  /\ getUTCMonth date = Some (m' - 1)
  /\ getUTCDate date = Some 1
  /\ forall h,
       isValidDateComponents h (Some y) (Some m) (Some (daysInMonth y m + 1))
       = false.
Proof.
  intros Hy L Hm y' m' date.
  assert (R' : realDate y' m' 1 = true).
  { unfold realDate, y', m', daysInMonth.
    destruct (Z.eqb_spec m 12) as [-> | N]; [reflexivity|].
    month_cases m C; subst m; try lia;
      destruct (isLeapYear y); reflexivity. }
  assert (D : date = Some (utcMidnight y' m' 1)).
  { unfold date. rewrite createDateFromComps_utcMidnight
      by (apply legacyYear_false; exact L).
    unfold utcMidnight at 1. rewrite MakeDay_next_month by exact Hm.
    replace (MakeDay y m 1) with (MakeDay y' (m' - 1) 1).
    - apply TimeClip_utcMidnight_wide; [|exact R'].
      unfold y'. destruct (m =? 12); lia.
    - unfold y', m'. destruct (Z.eqb_spec m 12) as [-> | N].
      + symmetry. apply MakeDay_month_12.
      + now replace (m + 1 - 1) with m by lia. }
  split; [exact D|]. rewrite D.
  cbn [getUTCFullYear getUTCMonth getUTCDate option_map]. unfold utcMidnight.
  destruct (components_MakeDay y' m' 1 0 R' ltac:(unfold msPerDay; lia))
    as (-> & -> & ->).
  repeat (split; [reflexivity|]).
  intros h.
  destruct (isValidDateComponents h (Some y) (Some m)
              (Some (daysInMonth y m + 1))) eqn:V; [|reflexivity].
  apply valid_components_real in V. unfold realDate in V.
  rewrite !andb_true_iff, !Z.leb_le in V. lia.
Qed.

Lemma createDateFromComps_rolls_over_witness :
  createDateFromComps (Some 2025) (Some 6) (Some 31) = Some 1751328000000
  /\ getUTCFullYear (Some 1751328000000) = Some 2025
  /\ getUTCMonth (Some 1751328000000) = Some 6
  /\ getUTCDate (Some 1751328000000) = Some 1
  /\ isValidDateComponents hostUTC (Some 2025) (Some 6) (Some 31) = false.
Proof.
  assert (Y : -270000 <= 2025 < 270000) by lia.
  assert (L : ~ 0 <= 2025 <= 99) by lia.
  assert (M : 1 <= 6 <= 12) by lia.
  destruct (createDateFromComps_rolls_over 2025 6 Y L M)
    as (D & U1 & U2 & U3 & V).
  split; [exact D|]. split; [exact U1|]. split; [exact U2|].
  split; [exact U3|]. exact (V hostUTC).
Defined.

(** ** Across texts, dialects and hosts *)

(** X13: where offsets stay within a day of UTC, two texts for which
    [getDateObject] returns the same date name the same year, month and
    day. *)
Theorem getDateObject_same_date_same_day (h : Host) (s1 s2 : string)
    (date : Date) :
  boundedZone h ->
  getDateObject h (inl s1) = Ok date -> getDateObject h (inl s2) = Ok date ->
  exists y m d,
    (s1 = isoText y m d \/ s1 = shortText "." y m d
     \/ s1 = shortText "/" y m d)
    /\ (s2 = isoText y m d \/ s2 = shortText "." y m d
        \/ s2 = shortText "/" y m d).
Proof.
  intros Hz H1 H2.
  destruct (getDateObject_Ok_inv h s1 date Hz H1)
    as (y1 & m1 & d1 & _ & R1 & _ & E1 & D1).
  destruct (getDateObject_Ok_inv h s2 date Hz H2)
    as (y2 & m2 & d2 & _ & R2 & _ & E2 & D2).
  assert (U : utcMidnight y1 m1 d1 = utcMidnight y2 m2 d2) by congruence.
  destruct (components_MakeDay y1 m1 d1 0 R1 ltac:(unfold msPerDay; lia))
    as (Y1 & M1 & A1).
  destruct (components_MakeDay y2 m2 d2 0 R2 ltac:(unfold msPerDay; lia))
    as (Y2 & M2 & A2).
  unfold utcMidnight in U. rewrite U in Y1, M1, A1.
  assert (y1 = y2) by congruence. assert (m1 = m2) by lia.
  assert (d1 = d2) by congruence. subst y2 m2 d2.
  exists y1, m1, d1. auto.
Qed.

Lemma getDateObject_same_date_same_day_witness :
  boundedZone hostUTC
  /\ exists y m d,
       ("02.01.2023"%string = isoText y m d
        \/ "02.01.2023"%string = shortText "." y m d
        \/ "02.01.2023"%string = shortText "/" y m d)
       /\ ("2023-01-02"%string = isoText y m d
           \/ "2023-01-02"%string = shortText "." y m d
           \/ "2023-01-02"%string = shortText "/" y m d).
Proof.
  assert (B : boundedZone hostUTC) by exact (eastward_bounded _ hostUTC_eastward).
  split; [exact B|].
  apply (getDateObject_same_date_same_day hostUTC _ _ (Some 1672617600000) B);
    vm_compute; reflexivity.
Defined.

(** X14: on every host, a year, a month and a day are accepted in one
    dialect exactly when they are accepted in the others; and where offsets
    stay within a day of UTC the three texts then give the same date. *)
Theorem dialects_agree (h : Host) (y m d : Z) :
  inWidth y m d ->
  (isOk (getDateObject h (inl (shortText "." y m d)))
   = isOk (getDateObject h (inl (isoText y m d)))
   /\ isOk (getDateObject h (inl (shortText "/" y m d)))
      = isOk (getDateObject h (inl (isoText y m d))))
  /\ (boundedZone h ->
      forall date, getDateObject h (inl (isoText y m d)) = Ok date ->
        getDateObject h (inl (shortText "." y m d)) = Ok date
        /\ getDateObject h (inl (shortText "/" y m d)) = Ok date).
Proof.
  intros W.
  rewrite getDateObject_isoText, !getDateObject_shortText by auto.
  split.
  - destruct (isValidDateComponents h (Some y) (Some m) (Some d)); auto.
  - intros Hz date.
    destruct (isValidDateComponents h (Some y) (Some m) (Some d)) eqn:V;
      [|discriminate].
    intros [= <-].
    pose proof (valid_components_real h y m d V) as R.
    pose proof (valid_components_year h y m d Hz V) as Y.
    apply legacyYear_false in Y.
    rewrite createDateFromComps_utcMidnight, TimeClip_utcMidnight
      by (assumption || apply W).
    auto.
Qed.

Lemma dialects_agree_witness :
  inWidth 2024 2 29 /\ boundedZone hostBerlin
  /\ getDateObject hostBerlin (inl "2024-02-29"%string)
     = Ok (Some 1709164800000)
  /\ getDateObject hostBerlin (inl "29.02.2024"%string)
     = Ok (Some 1709164800000)
  /\ getDateObject hostBerlin (inl "29/02/2024"%string)
     = Ok (Some 1709164800000).
Proof.
  assert (W : inWidth 2024 2 29) by (apply fits_inWidth; reflexivity).
  assert (B : boundedZone hostBerlin)
    by exact (eastward_bounded _ hostBerlin_eastward).
  assert (E : getDateObject hostBerlin (inl (isoText 2024 2 29))
              = Ok (Some 1709164800000)) by (vm_compute; reflexivity).
  split; [exact W|]. split; [exact B|]. split; [exact E|].
  exact (proj2 (dialects_agree hostBerlin 2024 2 29 W) B _ E).
Defined.

(** X15: east of Greenwich and at UTC, [getDateObject] accepts a text of
    any of the three dialects exactly when it names a real calendar date of
    a year from 100 on, and then returns UTC midnight of that day. *)
Theorem getDateObject_east (h : Host) (s : string) (y m d : Z) :
  eastwardZone h -> inWidth y m d ->
  s = isoText y m d \/ s = shortText "." y m d \/ s = shortText "/" y m d ->
  getDateObject h (inl s)
  = if realDate y m d && (100 <=? y)
    then Ok (Some (utcMidnight y m d))
    else Throw (InvalidDateError s).
Proof.
  intros Hz W E.
  rewrite (getDateObject_dialect h s y m d W E).
  rewrite valid_components_east_eq by (exact Hz || (destruct W; lia)).
  assert (L : negb (legacyYear y) = (100 <=? y)).
  { unfold legacyYear. destruct W as [Hy _].
    destruct (Z.leb_spec 0 y); destruct (Z.leb_spec y 99);
      destruct (Z.leb_spec 100 y); cbn; try reflexivity; lia. }
  rewrite L.
  destruct (realDate y m d) eqn:R; [|reflexivity].
  destruct (100 <=? y) eqn:Y; [|reflexivity].
  cbn [andb]. f_equal.
  destruct (test isoRegex s); [reflexivity|].
  rewrite createDateFromComps_utcMidnight
    by (rewrite <- L in Y; now destruct (legacyYear y)).
  apply TimeClip_utcMidnight; [apply W | exact R].
Qed.

Lemma getDateObject_east_witness :
  eastwardZone hostBerlin /\ inWidth 1900 2 29
  /\ getDateObject hostBerlin (inl "29.02.1900"%string)
     = Throw (InvalidDateError "29.02.1900")
  /\ getDateObject hostBerlin (inl "28/02/1900"%string)
     = Ok (Some (utcMidnight 1900 2 28)).
Proof.
  split; [exact hostBerlin_eastward|].
  assert (W : inWidth 1900 2 29) by (apply fits_inWidth; reflexivity).
  assert (W' : inWidth 1900 2 28) by (apply fits_inWidth; reflexivity).
  split; [exact W|]. split.
  - exact (getDateObject_east hostBerlin "29.02.1900" 1900 2 29
             hostBerlin_eastward W (or_intror (or_introl eq_refl))).
  - exact (getDateObject_east hostBerlin "28/02/1900" 1900 2 28
             hostBerlin_eastward W' (or_intror (or_intror eq_refl))).
Defined.

(** X16: any two hosts east of Greenwich or at UTC give the same result on
    every input of [getDateObject]: there the parser depends neither on the
    time zone nor on the engine. *)
Theorem getDateObject_east_host_independent (h h' : Host)
    (x : string + Date) :
  eastwardZone h -> eastwardZone h' ->
  getDateObject h x = getDateObject h' x.
Proof.
  intros Hz Hz'. destruct x as [s|date]; [|reflexivity].
  destruct (test isoRegex s || test (shortRegex ".") s
            || test (shortRegex "/") s) eqn:T.
  - destruct (dialect_text_inv s T) as (y & m & d & W & E).
    rewrite !(getDateObject_dialect _ s y m d W E).
    now rewrite !valid_components_east_eq by (assumption || (destruct W; lia)).
  - apply orb_false_iff in T as [T T3]. apply orb_false_iff in T as [T1 T2].
    now rewrite !getDateObject_no_pattern.
Qed.

Lemma getDateObject_east_host_independent_witness :
  eastwardZone hostUTC /\ eastwardZone hostBerlin
  /\ getDateObject hostUTC (inl "31.12.2020"%string)
     = getDateObject hostBerlin (inl "31.12.2020"%string).
Proof.
  split; [exact hostUTC_eastward|]. split; [exact hostBerlin_eastward|].
  exact (getDateObject_east_host_independent hostUTC hostBerlin _
           hostUTC_eastward hostBerlin_eastward).
Defined.

(** * Further properties of the converters *)

Lemma Math_abs_opp x : Math_abs (SFopp x) = Math_abs x.
Proof. destruct x as [[]|[]| |[] m e]; reflexivity. Qed.

Lemma mapM_isOk {A B} (f : A -> result B) l :
  isOk (mapM f l) = forallb (fun a => isOk (f a)) l.
Proof.
  induction l as [|a l IH]; cbn [mapM forallb]; [reflexivity|].
  destruct (f a) as [b|e]; cbn [bind isOk andb]; [|reflexivity].
  rewrite <- IH. now destruct (mapM f l).
Qed.

Lemma mapM_first_failure {A B} (f : A -> result B) pre a post e :
  Forall (fun x => isOk (f x) = true) pre -> f a = Throw e ->
  mapM f (pre ++ a :: post) = Throw e.
Proof.
  intros H Fa. induction H as [|x pre Hx _ IH]; cbn [app mapM].
  - now rewrite Fa.
  - destruct (f x); [|discriminate Hx]. cbn [bind]. now rewrite IH.
Qed.

Section MoreWithParser.
Context {parser : NumberParser}.

(** X17: the date of a transaction [convertToTransaction] returns is the
    date [getDateObject] returns for the execution date text, and its type
    is BUY exactly for the type text "Kauf" and SELL exactly for
    "Verkauf". *)
Theorem convertToTransaction_date_and_type (h : Host)
    (data : RawTransaction.t) (t : Transaction.t) :
  convertToTransaction h data = Ok t ->
  getDateObject h (inl (RawTransaction.executionDate data))
    = Ok (Transaction.date t)
  /\ (Transaction.type t = BUY <-> RawTransaction.type data = "Kauf"%string)
  /\ (Transaction.type t = SELL
      <-> RawTransaction.type data = "Verkauf"%string).
Proof.
  intros H. apply convertToTransaction_Ok in H.
  destruct H as (date & ty & sh & pr & fe & Hd & Ht & _ & _ & _ & ->).
  cbn [Transaction.date Transaction.type]. split; [exact Hd|].
  unfold convertRawType in Ht.
  destruct (String.eqb_spec (RawTransaction.type data) "Kauf") as [E | N1].
  - injection Ht as <-. rewrite E. split; split; auto; discriminate.
  - destruct (String.eqb_spec (RawTransaction.type data) "Verkauf")
      as [E | N2]; [|discriminate].
    injection Ht as <-. rewrite E. split; split; auto; discriminate.
Qed.

(** X18: the sign of the share count and of the fees is lost in the
    conversion: two raw transactions that differ only in their texts for
    shares and total fees convert to the same result whenever the parsed
    numbers have the same magnitudes, a number and its opposite for
    instance. *)
Theorem convertToTransaction_sign_insensitive (h : Host)
    (executionDate type shares shares' price totalFees totalFees' : string)
    (sh sh' fe fe' : number) :
  parseNumberWithAutoLocale shares = Ok sh ->
  parseNumberWithAutoLocale shares' = Ok sh' ->
  parseNumberWithAutoLocale totalFees = Ok fe ->
  parseNumberWithAutoLocale totalFees' = Ok fe' ->
  sh' = sh \/ sh' = SFopp sh -> fe' = fe \/ fe' = SFopp fe ->
  convertToTransaction h
    (RawTransaction.mk executionDate type shares price totalFees)
  = convertToTransaction h
      (RawTransaction.mk executionDate type shares' price totalFees').
Proof.
  intros S S' F F' Hs Hf. unfold convertToTransaction.
  rewrite S, S', F, F'.
  assert (As : Math_abs sh' = Math_abs sh)
    by (destruct Hs as [-> | ->]; [reflexivity | apply Math_abs_opp]).
  assert (Af : Math_abs fe' = Math_abs fe)
    by (destruct Hf as [-> | ->]; [reflexivity | apply Math_abs_opp]).
  destruct (getDateObject h (inl executionDate)); [|reflexivity].
  destruct (convertRawType type); [|reflexivity].
  destruct (parseNumberWithAutoLocale price); [|reflexivity].
  cbn [bind]. now rewrite As, Af.
Qed.

Lemma mapM_convertToQuoteItem_isOk items :
  isOk (mapM convertToQuoteItem items)
  = forallb (fun raw =>
               isOk (parseNumberWithAutoLocale (RawQuoteItem.price raw)))
      items.
Proof.
  rewrite mapM_isOk. induction items as [|raw items IH]; cbn [forallb];
    [reflexivity|].
  now rewrite convertToQuoteItem_isOk, IH.
Qed.

(** X19: [convertToQuoteData] returns exactly when the price of every item
    parses; neither the name, the identifier and the exchange nor the date
    texts of the items can make it throw. *)
Theorem convertToQuoteData_returns_iff (data : RawQuoteData.t) :
  isOk (convertToQuoteData data)
  = forallb (fun raw =>
               isOk (parseNumberWithAutoLocale (RawQuoteItem.price raw)))
      (RawQuoteData.items data).
Proof.
  destruct data as [name nsin exchange items].
  unfold convertToQuoteData. cbn [RawQuoteData.items].
  rewrite <- mapM_convertToQuoteItem_isOk.
  now destruct (mapM convertToQuoteItem items).
Qed.

(** X20: when the price of an item does not parse and the prices of all
    items before it do, [convertToQuoteData] throws the error of that item;
    the items after it are not looked at, and no partial result is
    returned. *)
Theorem convertToQuoteData_first_failure (name nsin exchange : string)
    (before after : list RawQuoteItem.t) (raw : RawQuoteItem.t) (e : Error) :
  Forall (fun r =>
            isOk (parseNumberWithAutoLocale (RawQuoteItem.price r)) = true)
         before ->
  parseNumberWithAutoLocale (RawQuoteItem.price raw) = Throw e ->
  convertToQuoteData
    (RawQuoteData.mk name nsin exchange (before ++ raw :: after))
  = Throw e.
Proof.
  intros B F. unfold convertToQuoteData.
  rewrite (mapM_first_failure convertToQuoteItem before raw after e);
    [reflexivity | |].
  - eapply Forall_impl; [|exact B]. intros r.
    now rewrite convertToQuoteItem_isOk.
  - destruct raw as [date price]. unfold convertToQuoteItem.
    cbn [RawQuoteItem.price] in F. now rewrite F.
Qed.

End MoreWithParser.

Lemma convertToTransaction_date_and_type_witness :
  @convertToTransaction Sample.integerParser hostUTC Sample.rawSell
    = Ok (Transaction.mk (Some 1672617600000) SELL (S754_finite false 5 0)
            (S754_finite false 100 0) None (S754_finite false 2 0))
  /\ getDateObject hostUTC (inl "02.01.2023"%string)
     = Ok (Some 1672617600000).
Proof.
  assert (E : @convertToTransaction Sample.integerParser hostUTC Sample.rawSell
              = Ok (Transaction.mk (Some 1672617600000) SELL
                      (S754_finite false 5 0) (S754_finite false 100 0) None
                      (S754_finite false 2 0)))
    by (vm_compute; reflexivity).
  split; [exact E|].
  exact (proj1 (@convertToTransaction_date_and_type Sample.integerParser
                  hostUTC Sample.rawSell _ E)).
Defined.

Lemma convertToTransaction_sign_insensitive_witness :
  @convertToTransaction Sample.integerParser hostUTC Sample.rawSell
  = @convertToTransaction Sample.integerParser hostUTC rawSellUnsigned.
Proof.
  exact (@convertToTransaction_sign_insensitive Sample.integerParser hostUTC
           "02.01.2023" "Verkauf" "-5" "5" "100" "-2" "-2"
           (S754_finite true 5 0) (S754_finite false 5 0)
           (S754_finite true 2 0) (S754_finite true 2 0)
           eq_refl eq_refl eq_refl eq_refl
           (or_intror eq_refl) (or_introl eq_refl)).
Defined.

Lemma convertToQuoteData_first_failure_witness :
  @convertToQuoteData Sample.integerParser rawQuotesBadPrice
  = Throw (MkError "not a number").
Proof.
  apply (@convertToQuoteData_first_failure Sample.integerParser
           "ACME" "123456" "XETRA"
           [RawQuoteItem.mk "2023-01-03" "101"]
           [RawQuoteItem.mk "2023-01-05" ""]
           (RawQuoteItem.mk "2023-01-04" "n/a")).
  - repeat constructor.
  - reflexivity.
Defined.
